(** * FY4B AGRI Level-1 reader: extraction and radiometric calibration

    A shallow embedding of [fy4b.py]: the class [FY4B_AGRI_L1] with its
    constructor, [set_geo_desc], [extract] and [calibrate], together with the
    parts of Python, NumPy and xarray these methods call.

    Conventions of the model.
    - A NumPy float is [NaN] or a finite value, held as a rational.  The
      arithmetic that builds the axes of the mesh is rounded to the nearest
      double after every operation, as Python's and NumPy's is ([Double]);
      the arithmetic of the calibration is exact.
    - A Python exception is a value of [exn]; a call that may raise returns
      a [result].
    - The object's attributes are the fields of the record [FY4B_AGRI_L1];
      a method that assigns attributes returns the updated object.
    - xarray [Dataset]s and attribute dictionaries are finite maps. *)

From Stdlib Require Import Ascii String QArith Qround Lqa ZArith Lia.
From stdpp Require Import gmap strings list.

Open Scope string_scope.

(** ** Exceptions *)

Inductive exn : Type :=
| ValueError (msg : string)
| KeyError (key : string)
| IndexError (msg : string)
| AttributeError (attr : string)
| TypeError (msg : string)
| ZeroDivisionError (msg : string)
| FileNotFoundError (path : string).

Inductive result (A : Type) : Type :=
| Ok (a : A)
| Raise (e : exn).
Arguments Ok {A} a.
Arguments Raise {A} e.

#[global] Instance result_ret : MRet result := fun _ a => Ok a.
#[global] Instance result_bind : MBind result := fun _ _ f r =>
  match r with
  | Ok a => f a
  | Raise e => Raise e
  end.

Definition is_Ok {A} (r : result A) : Prop := exists a, r = Ok a.

Definition of_option {A} (o : option A) (e : exn) : result A :=
  match o with
  | Some a => Ok a
  | None => Raise e
  end.

(** ** Floats *)

Inductive float : Type :=
| NaN
| Fin (q : Q).

Definition fmul (x y : float) : float :=
  match x, y with
  | Fin a, Fin b => Fin (a * b)
  | _, _ => NaN
  end.

Definition fadd (x y : float) : float :=
  match x, y with
  | Fin a, Fin b => Fin (a + b)
  | _, _ => NaN
  end.

Definition fsub (x y : float) : float :=
  match x, y with
  | Fin a, Fin b => Fin (a - b)
  | _, _ => NaN
  end.

(** [x / y]; a zero divisor gives an infinity or a NaN, neither of which is
    a finite value, and every later use multiplies or adds, so the model
    collapses them to [NaN]. *)
Definition fdiv (x y : float) : float :=
  match x, y with
  | Fin a, Fin b => if Qeq_bool b 0 then NaN else Fin (a / b)
  | _, _ => NaN
  end.

(** [x != y]: a NaN differs from everything. *)
Definition fne (x y : float) : bool :=
  match x, y with
  | Fin a, Fin b => negb (Qeq_bool a b)
  | _, _ => true
  end.

Definition is_finite (x : float) : Prop :=
  match x with
  | Fin _ => True
  | NaN => False
  end.

(** Numeric equality of floats as values: NaN is the one sentinel. *)
Definition feq (x y : float) : Prop :=
  match x, y with
  | NaN, NaN => True
  | Fin a, Fin b => a == b
  | _, _ => False
  end.

(** ** IEEE doubles

    The finite doubles are the rationals [m * 2^e] with [m] of at most 53
    binary digits.  An operation on doubles returns the double nearest to
    the exact result, a tie going to the one with an even [m].  The range
    of the exponent is not bounded: overflow and subnormal numbers are
    left out. *)

Module Double.

(** The quotient [n / d] of two positive integers rounded to the nearest
    integer, a tie going to the even one. *)
Definition round_div (n d : Z) : Z :=
  let f := (n / d)%Z in
  match (2 * (n mod d) ?= d)%Z with
  | Lt => f
  | Gt => (f + 1)%Z
  | Eq => if Z.even f then f else (f + 1)%Z
  end.

(** The fraction [n / d / 2^e] as a pair of integers. *)
Definition scale (n d e : Z) : Z * Z :=
  if (0 <=? e)%Z then (n, d * 2 ^ e)%Z else (n * 2 ^ (- e), d)%Z.

(** The exponent of the leading binary digit of [n / d]. *)
Definition exponent (n d : Z) : Z :=
  let e := (Z.log2 n - Z.log2 d)%Z in
  let '(a, b) := scale n d e in
  if (b <=? a)%Z then e else (e - 1)%Z.

(** The rational [m * 2^e] in lowest terms. *)
Definition ldexp (m e : Z) : Q :=
  if (0 <=? e)%Z then inject_Z (m * 2 ^ e)
  else Qred (Qmake m (Z.to_pos (2 ^ (- e)))).

(** The double nearest to [n / d], for positive [n] and [d]: the quotient
    is scaled to 53 digits before the point and rounded there. *)
Definition round_pos (n d : Z) : Q :=
  let e := (exponent n d - 52)%Z in
  let '(a, b) := scale n d e in
  ldexp (round_div a b) e.

(** The double nearest to a rational; this is also the value Python gives
    to a decimal literal. *)
Definition round (q : Q) : Q :=
  match Qnum q with
  | Z0 => 0
  | Zpos n => round_pos (Zpos n) (Zpos (Qden q))
  | Zneg n => - round_pos (Zpos n) (Zpos (Qden q))
  end.

Definition add (x y : Q) : Q := round (x + y).
Definition sub (x y : Q) : Q := round (x - y).
Definition mul (x y : Q) : Q := round (x * y).
Definition div (x y : Q) : Q := round (x / y).

End Double.

(** ** Python built-ins *)

Module Py.

(** Normalisation of one bound of a slice [s[i:j]] for a sequence of
    length [len]: negative bounds count from the end, and both are clipped
    to [0..len]. *)
Definition slice_bound (len i : Z) : Z :=
  if (i <? 0)%Z then Z.max (len + i) 0 else Z.min i len.

(** [s[i:j]] *)
Definition slice (s : string) (i j : Z) : string :=
  let len := Z.of_nat (String.length s) in
  let a := slice_bound len i in
  let b := slice_bound len j in
  String.substring (Z.to_nat a) (Z.to_nat (b - a)) s.

(** [s[i:]] *)
Definition slice_from (s : string) (i : Z) : string :=
  let len := Z.of_nat (String.length s) in
  let a := slice_bound len i in
  String.substring (Z.to_nat a) (Z.to_nat (len - a)) s.

(** [range(a, b)] *)
Definition range (a b : Z) : list Z :=
  map (fun i => (a + Z.of_nat i)%Z) (seq 0 (Z.to_nat (b - a))).

(** [l[i]] on a sequence, with Python's negative indices. *)
Definition getitem {A} (l : list A) (i : Z) : result A :=
  let len := Z.of_nat (length l) in
  let j := if (i <? 0)%Z then (i + len)%Z else i in
  if (j <? 0)%Z then Raise (IndexError "index out of bounds")
  else of_option (l !! Z.to_nat j) (IndexError "index out of bounds").

Definition is_space (c : ascii) : bool :=
  let n := nat_of_ascii c in
  ((9 <=? n) && (n <=? 13) || (28 <=? n) && (n <=? 32))%nat.

Definition digit_of (c : ascii) : option Z :=
  let n := nat_of_ascii c in
  if ((48 <=? n) && (n <=? 57))%nat then Some (Z.of_nat n - 48)%Z else None.

Fixpoint lstrip (s : list ascii) : list ascii :=
  match s with
  | c :: s' => if is_space c then lstrip s' else s
  | [] => []
  end.

Definition strip (s : list ascii) : list ascii :=
  rev (lstrip (rev (lstrip s))).

Fixpoint digits (acc : Z) (s : list ascii) : option Z :=
  match s with
  | [] => Some acc
  | c :: s' =>
      match digit_of c with
      | Some d => digits (10 * acc + d) s'
      | None => None
      end
  end.

Definition unsigned (s : list ascii) : option Z :=
  match s with
  | [] => None
  | _ => digits 0 s
  end.

(** [int(s)] for an ASCII string with no underscore between digits:
    surrounding white space, an optional sign, then decimal digits. *)
Definition int (s : string) : result Z :=
  let body := strip (list_ascii_of_string s) in
  let parsed :=
    match body with
    | "-"%char :: ds => Z.opp <$> unsigned ds
    | "+"%char :: ds => unsigned ds
    | ds => unsigned ds
    end in
  of_option parsed (ValueError ("invalid literal for int() with base 10: '" ++ s ++ "'")).

End Py.

(** ** NumPy *)

Module Np.

(** [np.arange(start, stop, step)] on doubles.  The length is the ceiling
    of [(stop - start) / step], computed on the Python numbers, so that a
    zero step raises [ZeroDivisionError]; no value is produced when the
    length is not positive.  The first value is [start], the second
    [start + step]; their difference [delta] gives the others as
    [start + i * delta], the product and the sum rounded one after the
    other. *)
Definition arange (start stop step : Q) : result (list Q) :=
  if Qeq_bool step 0 then Raise (ZeroDivisionError "float division by zero")
  else
    let n := Z.to_nat (Qceiling (Double.div (Double.sub stop start) step)) in
    let next := Double.add start step in
    let delta := Double.sub next start in
    Ok (map (fun i =>
               match i with
               | O => start
               | S O => next
               | _ => Double.add start (Double.mul (inject_Z (Z.of_nat i)) delta)
               end) (seq 0 n)).

(** [np.meshgrid(x, y)]: two arrays of shape [(len y, len x)], the first
    repeating [x] along every row, the second constant along each row. *)
Definition meshgrid (x y : list Q) : list (list float) * list (list float) :=
  (map (fun _ => map Fin x) y, map (fun b => map (fun _ => Fin b) x) y).

(** The shape test of a two-dimensional array held as a list of rows. *)
Definition has_shape (v : list (list float)) (n m : nat) : bool :=
  (length v =? n)%nat && forallb (fun r => (length r =? m)%nat) v.

End Np.

(** ** SciPy's one-dimensional interpolation *)

Module Interp1d.

(** [np.searchsorted(x, v, side='left')]: the number of leading entries
    below [v]. *)
Fixpoint searchsorted (x : list Q) (v : Q) : nat :=
  match x with
  | [] => 0
  | a :: x' => if Qle_bool v a then 0 else S (searchsorted x' v)
  end.

Definition clip (i lo hi : nat) : nat := Nat.min (Nat.max i lo) hi.

(** [interp1d(x, y, kind='linear', bounds_error=False, fill_value=nan)(v)]
    for an ascending [x]: the segment is chosen by [searchsorted] clipped to
    [1 .. len x - 1], the value is [slope * (v - x_lo) + y_lo], and a point
    outside [x[0] .. x[-1]] gets the fill value. *)
Definition linear (x : list Q) (y : list float) (v : float) : float :=
  match v with
  | NaN => NaN
  | Fin v =>
      let hi := clip (searchsorted x v) 1 (length x - 1) in
      let lo := (hi - 1)%nat in
      match x !! lo, x !! hi, y !! lo, y !! hi, head x, last x with
      | Some x_lo, Some x_hi, Some y_lo, Some y_hi, Some x_first, Some x_last =>
          if negb (Qle_bool x_first v) || negb (Qle_bool v x_last) then NaN
          else
            let slope := fdiv (fsub y_hi y_lo) (Fin (x_hi - x_lo)%Q) in
            fadd (fmul slope (Fin (v - x_lo)%Q)) y_lo
      | _, _, _, _, _, _ => NaN
      end
  end.

(** Midpoints of consecutive entries: [x[1:]/2 + x[:-1]/2]. *)
Fixpoint midpoints (x : list Q) : list Q :=
  match x with
  | a :: (b :: _) as x' => (b / 2 + a / 2)%Q :: midpoints x'
  | _ => []
  end.

(** The position nearest to [v] on an ascending axis [x]: the cell, cut at
    the midpoints, that holds [v]; none outside [x[0] .. x[-1]]. *)
Definition nearest_index (x : list Q) (v : Q) : option nat :=
  match head x, last x with
  | Some x_first, Some x_last =>
      if negb (Qle_bool x_first v) || negb (Qle_bool v x_last) then None
      else Some (clip (searchsorted (midpoints x) v) 0 (length x - 1))
  | _, _ => None
  end.

(** [interp1d(x, y, kind='nearest', bounds_error=False, fill_value=nan)(v)] *)
Definition nearest (x : list Q) (y : list float) (v : float) : float :=
  match v with
  | NaN => NaN
  | Fin v =>
      match nearest_index x v with
      | Some i => default NaN (y !! i)
      | None => NaN
      end
  end.

End Interp1d.

(** ** xarray *)

Module Xr.

Inductive attr : Type :=
| AStr (s : string)
| ANum (q : Q).

(** A two-dimensional [DataArray]: name, dimension names, one-dimensional
    coordinates by name, the values as a list of rows, and the attribute
    dictionary. *)
Record DataArray : Type := mkDataArray {
  name : option string;
  dims : list string;
  coords : gmap string (list Q);
  values : list (list float);
  attrs : gmap string attr }.

(** [xr.DataArray(data, coords=((d1, c1), (d2, c2)), name=.., attrs=..)]:
    the data must have one row per entry of [c1] and one column per entry
    of [c2]. *)
Definition new (data : list (list float)) (d1 : string) (c1 : list Q)
    (d2 : string) (c2 : list Q) (nm : option string)
    (ats : gmap string attr) : result DataArray :=
  if Np.has_shape data (length c1) (length c2) then
    Ok {| name := nm; dims := [d1; d2];
          coords := <[d2 := c2]> (<[d1 := c1]> ∅);
          values := data; attrs := ats |}
  else Raise (ValueError "conflicting sizes for dimension").

(** Attribute-style access [da.FillValue], read from the attribute
    dictionary. *)
Definition FillValue (da : DataArray) : result Q :=
  match attrs da !! "FillValue" with
  | Some (ANum q) => Ok q
  | Some (AStr _) => Raise (TypeError "FillValue is not a number")
  | None => Raise (AttributeError "FillValue")
  end.

Definition map_values (f : float -> float) (da : DataArray) : DataArray :=
  {| name := name da; dims := dims da; coords := coords da;
     values := map (map f) (values da); attrs := attrs da |}.

(** [da.fillna(v)], which keeps the attributes: every NaN becomes [v]. *)
Definition fill_nan (v : Q) (x : float) : float :=
  match x with
  | NaN => Fin v
  | Fin _ => x
  end.

Definition fillna (v : Q) (da : DataArray) : DataArray :=
  map_values (fill_nan v) da.

(** [da.where(da != v)], which keeps the attributes: an entry that does
    not satisfy the condition becomes NaN. *)
Definition mask_eq (v : Q) (x : float) : float :=
  if fne x (Fin v) then x else NaN.

Definition where_ne (v : Q) (da : DataArray) : DataArray :=
  map_values (mask_eq v) da.

(** [k * da + b]: arithmetic keeps name and coordinates and drops the
    attributes. *)
Definition scale_offset (k b : float) (da : DataArray) : DataArray :=
  {| name := name da; dims := dims da; coords := coords da;
     values := map (map (fun x => fadd (fmul k x) b)) (values da);
     attrs := ∅ |}.

(** A one-dimensional variable of a group: a lookup curve stored along
    the dimension [cdim], with the coordinates it carries along it. *)
Record Curve : Type := mkCurve {
  cname : option string;
  cdim : string;
  ccoords : gmap string (list Q);
  cvalues : list float;
  cattrs : gmap string attr }.

(** [c.swap_dims({c.dims[0]: new})]: the dimension takes the name [new];
    a coordinate of that name, when the curve has one, thereby becomes the
    index of the dimension. *)
Definition swap_dims (c : Curve) (new : string) : Curve :=
  {| cname := cname c; cdim := new; ccoords := ccoords c;
     cvalues := cvalues c; cattrs := cattrs c |}.

(** The index of the curve's dimension: the coordinate named like the
    dimension, and the positions [0 .. n-1] when there is none. *)
Definition index (c : Curve) : list Q :=
  match ccoords c !! cdim c with
  | Some x => x
  | None => map (fun i => inject_Z (Z.of_nat i)) (seq 0 (length (cvalues c)))
  end.

(** Stable ascending sort of the rows of a curve by their abscissa, as
    [sortby] does before interpolating. *)
Fixpoint insert_row (r : Q * float) (l : list (Q * float)) : list (Q * float) :=
  match l with
  | [] => [r]
  | r' :: l' => if Qle_bool r.1 r'.1 then r :: l else r' :: insert_row r l'
  end.

Fixpoint sortby (l : list (Q * float)) : list (Q * float) :=
  match l with
  | [] => []
  | r :: l' => insert_row r (sortby l')
  end.

(** The rows (abscissa, value) that the interpolator receives. *)
Definition rows (c : Curve) : list (Q * float) :=
  sortby (zip (index c) (cvalues c)).

(** The value of [c.interp(dim=v, method=..)] at one point. *)
Definition interp_point (method : string) (c : Curve) (v : float) : result float :=
  if String.eqb method "linear" then
    Ok (Interp1d.linear (rows c).*1 (rows c).*2 v)
  else if String.eqb method "nearest" then
    Ok (Interp1d.nearest (rows c).*1 (rows c).*2 v)
  else Raise (ValueError (method ++ " is not a valid interpolator")).

(** The default of the [method] argument of [interp]. *)
Definition interp_default_method : string := "linear".

(** [c.interp(dim=da)] followed by [del data.coords[dim]]: the curve is
    evaluated at every entry of [da] with the default method; the result
    has the dimensions and coordinates of [da] and the name and attributes
    of the curve. *)
Definition interp (c : Curve) (da : DataArray) : result DataArray :=
  vals ← mapM (fun row => mapM (interp_point interp_default_method c) row) (values da);
  Ok {| name := cname c; dims := dims da; coords := coords da;
        values := vals; attrs := cattrs c |}.

End Xr.

Import Xr.

(** ** The product file *)

(** The group [/Calibration]: the coefficient array
    [CALIBRATION_COEF(SCALE+OFFSET)], one row [[k, b]] per channel, and the
    one-dimensional lookup curves [CALChannelNN] by variable name. *)
Record CalibrationGroup : Type := mkCalibrationGroup {
  CALIBRATION_COEF : option (list (list float));
  curves : gmap string Curve }.

(** What [xr.open_dataset] reads from a product file: the attributes of
    the root group, the variables of [/Data] and the group
    [/Calibration]. *)
Record HDF : Type := mkHDF {
  root_attrs : gmap string Z;
  Data : gmap string DataArray;
  Calibration : CalibrationGroup }.

(** ** Module constants *)

(** [f'Channel{x:02d}'] for [x] in [range(a, b)], below one hundred. *)
Definition digit (d : Z) : string :=
  String (ascii_of_nat (48 + Z.to_nat d)) EmptyString.

Definition channel_names (a b : Z) : list string :=
  map (fun x => "Channel" ++ digit (x / 10) ++ digit (x mod 10)) (Py.range a b).

Definition CONTENTS : gmap string (list string) :=
  <["4000M" := channel_names 1 15]>
  (<["2000M" := channel_names 1 8]>
  (<["1000M" := ["Channel01"; "Channel02"; "Channel03"]]>
  (<["0500M" := ["Channel02"]]> ∅))).

Definition SIZES : gmap string Z :=
  <["4000M" := 2748%Z]>
  (<["2000M" := 5496%Z]>
  (<["1000M" := 10992%Z]>
  (<["0500M" := 21984%Z]> ∅))).

(** ** The class [FY4B_AGRI_L1] *)

Record FY4B_AGRI_L1 : Type := mkFY4B {
  ds : gmap string DataArray;
  cal : CalibrationGroup;
  resolution : string;
  line_begin : Z;
  line_end : Z;
  column_begin : Z;
  column_end : Z;
  line : option DataArray;
  column : option DataArray;
  geo_desc : option (list Q) }.

Definition set_cache (self : FY4B_AGRI_L1) (l c : option DataArray)
    (g : option (list Q)) : FY4B_AGRI_L1 :=
  {| ds := ds self; cal := cal self; resolution := resolution self;
     line_begin := line_begin self; line_end := line_end self;
     column_begin := column_begin self; column_end := column_end self;
     line := l; column := c; geo_desc := g |}.

(** *** [calibrate] *)

Definition units_of (calibration : string) : attr :=
  AStr (if String.eqb calibration "reflectance" then "100%" else "mW/ (m2 cm-1 sr)").

Definition set_name (nm : string) (da : DataArray) : DataArray :=
  {| name := Some nm; dims := dims da; coords := coords da;
     values := values da; attrs := attrs da |}.

Definition set_attrs (ats : gmap string attr) (da : DataArray) : DataArray :=
  {| name := name da; dims := dims da; coords := coords da;
     values := values da; attrs := ats |}.

(** Unpacking [k, b = row]. *)
Definition unpack2 (row : list float) : result (float * float) :=
  match row with
  | [k; b] => Ok (k, b)
  | _ => Raise (ValueError "wrong number of values to unpack")
  end.

Definition calibrate (self : FY4B_AGRI_L1) (channel_name calibration : string)
    (dn_values : DataArray) : result DataArray :=
  if String.eqb calibration "dn" then
    Ok (set_attrs {["units" := AStr "DN"]} dn_values)
  else
    channel_num ← Py.int (Py.slice_from channel_name (-2));
    fill ← FillValue dn_values;
    let dn_values := fillna fill dn_values in
    data ←
      (if String.eqb calibration "reflectance" && (channel_num <=? 6)%Z
          || String.eqb calibration "radiance" && (6 <? channel_num)%Z
       then
         coef ← of_option (CALIBRATION_COEF (cal self))
                  (KeyError "CALIBRATION_COEF(SCALE+OFFSET)");
         row ← Py.getitem coef (channel_num - 1);
         kb ← unpack2 row;
         fill ← FillValue dn_values;
         let data := scale_offset kb.1 kb.2 (where_ne fill dn_values) in
         Ok (set_attrs (<["units" := units_of calibration]> (attrs data)) data)
       else if String.eqb calibration "brightness_temperature" && (6 <? channel_num)%Z
       then
         cal_table ← of_option (curves (cal self) !! ("CAL" ++ channel_name))
                       (KeyError ("CAL" ++ channel_name));
         let cal_table := swap_dims cal_table "dn" in
         data ← interp cal_table dn_values;
         Ok (set_attrs {["units" := AStr "K"]} data)
       else
         Raise (ValueError (channel_name ++ "没有" ++ calibration ++ "的定标方式")));
    Ok (set_name (channel_name ++ "_" ++ calibration) data).

Section Reader.

(** Modelled from the spec: the projection engine [latlon2linecolumn] of the
    module [projection], which maps a latitude mesh and a longitude mesh
    to native line and column arrays for a resolution identifier. *)
Variable latlon2linecolumn :
  list (list float) -> list (list float) -> string ->
  result (list (list float) * list (list float)).

(** xarray's interpolation of a two-dimensional array, given by its two
    coordinate axes and its values, at the points of a line array and a
    column array, for the method named by the first argument. *)
Variable interp_grid :
  string -> list Q -> list Q -> list (list float) ->
  list (list float) -> list (list float) -> result (list (list float)).

(** *** [set_geo_desc] *)

(** [[1000 * x for x in geo_desc]]: every parameter is a double, the one
    nearest to the rational given, and the product is rounded; no rounding
    to an integer takes place. *)
Definition scaled (g : list Q) : list Q :=
  map (fun x => Double.mul 1000 (Double.round x)) g.

(** The latitude axis [np.arange(lat_N, lat_S - 1, -step) / 1000] on the
    scaled parameters. *)
Definition lat_axis (lat_S lat_N step : Q) : result (list Q) :=
  a ← Np.arange lat_N (Double.sub lat_S 1) (- step)%Q;
  Ok (map (fun x => Double.div x 1000) a).

(** The longitude axis [np.arange(lon_W, lon_E + 1, step) / 1000]. *)
Definition lon_axis (lon_W lon_E step : Q) : result (list Q) :=
  a ← Np.arange lon_W (Double.add lon_E 1) step;
  Ok (map (fun x => Double.div x 1000) a).

(** The method returns the object with its attributes as the method left
    them, also when it raises half-way. *)
Definition set_geo_desc (self : FY4B_AGRI_L1) (g : option (list Q))
    : FY4B_AGRI_L1 * result unit :=
  match g with
  | None => (set_cache self None None None, Ok tt)
  | Some gd =>
      match scaled gd with
      | [lat_S; lat_N; lon_W; lon_E; step] =>
          match
            (lat ← lat_axis lat_S lat_N step;
             lon ← lon_axis lon_W lon_E step;
             let '(lon_mesh, lat_mesh) := Np.meshgrid lon lat in
             lc ← latlon2linecolumn lat_mesh lon_mesh (resolution self);
             Ok (lat, lon, lc))
          with
          | Raise e => (self, Raise e)
          | Ok (lat, lon, (l, c)) =>
              match Xr.new l "lat" lat "lon" lon (Some "line") ∅ with
              | Raise e => (self, Raise e)
              | Ok line' =>
                  let self1 := set_cache self (Some line') (column self) (geo_desc self) in
                  match Xr.new c "lat" lat "lon" lon (Some "column") ∅ with
                  | Raise e => (self1, Raise e)
                  | Ok column' =>
                      (set_cache self (Some line') (Some column') (Some gd), Ok tt)
                  end
              end
          end
      | _ => (self, Raise (ValueError "wrong number of values to unpack"))
      end
  end.

(** *** [__init__] *)

Definition init (fs : gmap string HDF) (file_path : string)
    (g : option (list Q)) : result FY4B_AGRI_L1 :=
  f ← of_option (fs !! file_path) (FileNotFoundError file_path);
  let res := Py.slice file_path (-15) (-10) in
  lb ← of_option (root_attrs f !! "Begin Line Number") (KeyError "Begin Line Number");
  le ← of_option (root_attrs f !! "End Line Number") (KeyError "End Line Number");
  cb ← of_option (root_attrs f !! "Begin Pixel Number") (KeyError "Begin Pixel Number");
  ce ← of_option (root_attrs f !! "End Pixel Number") (KeyError "End Pixel Number");
  let self :=
    {| ds := Data f; cal := Calibration f; resolution := res;
       line_begin := lb; line_end := le; column_begin := cb; column_end := ce;
       line := None; column := None; geo_desc := None |} in
  match set_geo_desc self g with
  | (self', Ok _) => Ok self'
  | (_, Raise e) => Raise e
  end.

(** *** [extract] *)

(** Truth value of the argument [geo_desc]: [None] and the empty list are
    false. *)
Definition truthy (g : option (list Q)) : bool :=
  match g with
  | Some (_ :: _) => true
  | _ => false
  end.

(** [a != b] on lists of numbers. *)
Fixpoint list_ne (a b : list Q) : bool :=
  match a, b with
  | [], [] => false
  | x :: a', y :: b' => negb (Qeq_bool x y) || list_ne a' b'
  | _, _ => true
  end.

(** [g != self.geo_desc] where the left side is a list *)
Definition geo_ne (g : list Q) (cached : option (list Q)) : bool :=
  match cached with
  | None => true
  | Some g' => list_ne g g'
  end.

Definition default_calibration : string := "reflectance".
Definition default_interp_method : string := "nearest".

Definition Z_axis (l : list Z) : list Q := map inject_Z l.

(** The grid [dn_values] that [extract] builds from the variable
    [NOM<channel_name>] and the product's line and column window. *)
Definition native_dn (self : FY4B_AGRI_L1) (channel_name : string)
    : result DataArray :=
  dn ← of_option (ds self !! ("NOM" ++ channel_name))
         (KeyError ("NOM" ++ channel_name));
  Xr.new (values dn)
    "line" (Z_axis (Py.range (line_begin self) (line_end self + 1)))
    "column" (Z_axis (Py.range (column_begin self) (column_end self + 1)))
    (name dn) (attrs dn).

(** [dn_values.interp(line=self.line, column=self.column, method=..)]
    followed by the deletion of the coordinates [line] and [column]: the
    result has the dimensions and coordinates of the cached arrays and
    keeps the name and the attributes of [dn_values]. *)
Definition resample (self : FY4B_AGRI_L1) (interp_method : string)
    (dn_values : DataArray) : result DataArray :=
  l ← of_option (line self) (TypeError "line is None");
  c ← of_option (column self) (TypeError "column is None");
  v ← interp_grid interp_method
        (Z_axis (Py.range (line_begin self) (line_end self + 1)))
        (Z_axis (Py.range (column_begin self) (column_end self + 1)))
        (values dn_values) (values l) (values c);
  Ok {| name := name dn_values; dims := dims l; coords := coords l;
        values := v; attrs := attrs dn_values |}.

Definition extract (self : FY4B_AGRI_L1) (channel_name calibration : string)
    (g : option (list Q)) (interp_method : string)
    : FY4B_AGRI_L1 * result DataArray :=
  let '(self, r) :=
    match g with
    | Some gd =>
        if truthy g && geo_ne gd (geo_desc self) then set_geo_desc self g
        else (self, Ok tt)
    | None => (self, Ok tt)
    end in
  match r with
  | Raise e => (self, Raise e)
  | Ok _ =>
      (self,
       dn_values ← native_dn self channel_name;
       dn_values ←
         (if truthy (geo_desc self) then resample self interp_method dn_values
          else Ok dn_values);
       calibrate self channel_name calibration dn_values)
  end.

(** The cached arrays are those of the cached parameters: setting the
    cached parameters again changes nothing. *)
Definition cache_consistent (self : FY4B_AGRI_L1) : Prop :=
  forall gd, geo_desc self = Some gd ->
             set_geo_desc self (Some gd) = (self, Ok tt).

End Reader.

(** ** Vocabulary of the statements *)

(** The entry of a grid at row [i] and column [j]. *)
Definition cell (da : DataArray) (i j : nat) : option float :=
  match values da !! i with
  | Some row => row !! j
  | None => None
  end.

(** The value [calibrate] computes on the linear path from one entry. *)
Definition linear_cell (k b : float) (fill : Q) (x : float) : float :=
  fadd (fmul k (mask_eq fill (fill_nan fill x))) b.

(** The value [calibrate] reads from the lookup curve for one entry. *)
Definition lookup_cell (c : Curve) (fill : Q) (x : float) : float :=
  Interp1d.linear (rows (swap_dims c "dn")).*1 (rows (swap_dims c "dn")).*2
    (fill_nan fill x).

(** The pairs of channel ordinal and requested quantity for which a
    calibration is defined. *)
Definition defined_pair (n : Z) (calibration : string) : bool :=
  String.eqb calibration "dn"
  || String.eqb calibration "reflectance" && (1 <=? n)%Z && (n <=? 6)%Z
  || String.eqb calibration "radiance" && (6 <? n)%Z
  || String.eqb calibration "brightness_temperature" && (6 <? n)%Z.

(** A rational in lowest terms: the one representation of its value. *)
Definition canonical (q : Q) : Prop := Qred q = q.

Definition strictly_increasing (l : list Q) : Prop :=
  forall i j x y, l !! i = Some x -> l !! j = Some y -> (i < j)%nat -> (x < y)%Q.

Definition strictly_decreasing (l : list Q) : Prop :=
  forall i j x y, l !! i = Some x -> l !! j = Some y -> (i < j)%nat -> (y < x)%Q.

(** A multiple of one thousandth. *)
Definition three_decimals (q : Q) : Prop :=
  exists z : Z, (1000 * q == inject_Z z)%Q.

(** ** A small product for the examples *)

Module Demo.

Definition path : string :=
  "FY4B-_AGRI--_N_DISK_1330E_L1-_FDI-_MULT_NOM_20220604200000_20220604201459_4000M_V0001.HDF".

(** The same product under a name whose resolution field is not one of
    the keys of [CONTENTS]. *)
Definition odd_path : string :=
  "FY4B-_AGRI--_N_DISK_1330E_L1-_FDI-_MULT_NOM_20220604200000_20220604201459_8000M_V0001.HDF".

(** An eight-bit toy sensor: digital numbers [0 .. 254], fill value 255. *)
Definition fill : Q := 255.

Definition nom (nm : string) (v : list (list float)) : DataArray :=
  {| name := Some nm; dims := ["phony_dim_0"; "phony_dim_1"]; coords := ∅;
     values := v; attrs := {["FillValue" := ANum fill]} |}.

Definition nom02 : DataArray :=
  nom "NOMChannel02" [[Fin 10; Fin 255; Fin 30]; [Fin 40; Fin 50; Fin 60]].

Definition nom07 : DataArray :=
  nom "NOMChannel07" [[Fin 0; Fin 255; Fin 7]; [Fin 1; Fin 2; Fin 3]].

(** Row [n - 1] holds the coefficients [k = n / 10] and [b = n] of
    channel [n]. *)
Definition coef : list (list float) :=
  map (fun n => [Fin (inject_Z n / 10)%Q; Fin (inject_Z n)]) (Py.range 1 15).

(** A lookup curve with one entry for every code [0 .. 255], stored in
    that order and carrying no coordinate. *)
Definition curve07 : Curve :=
  {| cname := Some "CALChannel07"; cdim := "phony_dim_2"; ccoords := ∅;
     cvalues := map (fun i => Fin (400 - inject_Z (Z.of_nat i) / 2)%Q) (seq 0 256);
     cattrs := ∅ |}.

Definition nom08 : DataArray :=
  nom "NOMChannel08" [[Fin 4; Fin 255; Fin 10]; [Fin 0; Fin 25; Fin 30]].

(** A lookup curve that carries its digital numbers as the coordinate
    [dn], stored from the largest digital number down. *)
Definition curve08 : Curve :=
  {| cname := Some "CALChannel08"; cdim := "phony_dim_3";
     ccoords := {["dn" := [30; 20; 10; 0]%Q]};
     cvalues := [Fin 250; Fin 260; Fin 270; Fin 280];
     cattrs := ∅ |}.

(** The same curve stored from the smallest digital number up. *)
Definition curve08_ascending : Curve :=
  {| cname := Some "CALChannel08"; cdim := "phony_dim_3";
     ccoords := {["dn" := [0; 10; 20; 30]%Q]};
     cvalues := [Fin 280; Fin 270; Fin 260; Fin 250];
     cattrs := ∅ |}.

Definition file : HDF :=
  {| root_attrs :=
       <["Begin Line Number" := 0%Z]>
       (<["End Line Number" := 1%Z]>
       (<["Begin Pixel Number" := 0%Z]>
       (<["End Pixel Number" := 2%Z]> ∅)));
     Data := <["NOMChannel02" := nom02]>
             (<["NOMChannel07" := nom07]>
             (<["NOMChannel08" := nom08]> ∅));
     Calibration := {| CALIBRATION_COEF := Some coef;
                       curves := <["CALChannel07" := curve07]>
                                 (<["CALChannel08" := curve08]> ∅) |} |}.

Definition fs : gmap string HDF := <[path := file]> (<[odd_path := file]> ∅).

(** A stand-in for the projection: line [60 - lat] and column [lon - 70],
    scaled by the full-disk size of the resolution relative to 4000M; an
    unknown resolution has no size. *)
Definition project (lat_mesh lon_mesh : list (list float)) (res : string)
    : result (list (list float) * list (list float)) :=
  size ← of_option (SIZES !! res) (KeyError res);
  let s := Fin (inject_Z size / 2748)%Q in
  Ok (map (map (fun la => fmul s (fsub (Fin 60) la))) lat_mesh,
      map (map (fun lo => fmul s (fsub lo (Fin 70)))) lon_mesh).

(** A stand-in for the resampling: nearest neighbour on both axes, NaN
    off the grid; no other method. *)
Definition pick (line_ax column_ax : list Q) (v : list (list float))
    (l c : float) : float :=
  match l, c with
  | Fin l, Fin c =>
      match Interp1d.nearest_index line_ax l, Interp1d.nearest_index column_ax c with
      | Some i, Some j =>
          match v !! i with
          | Some row => default NaN (row !! j)
          | None => NaN
          end
      | _, _ => NaN
      end
  | _, _ => NaN
  end.

Definition sample (method : string) (line_ax column_ax : list Q)
    (v l c : list (list float)) : result (list (list float)) :=
  if String.eqb method "nearest" then
    Ok (zip_with (zip_with (pick line_ax column_ax v)) l c)
  else Raise (ValueError (method ++ " is not a valid interpolator")).

(** The reader that the constructor builds on [path] without a grid. *)
Definition reader : FY4B_AGRI_L1 :=
  {| ds := Data file; cal := Calibration file; resolution := "4000M";
     line_begin := 0; line_end := 1; column_begin := 0; column_end := 2;
     line := None; column := None; geo_desc := None |}.

(** The reader after a grid has been set. *)
Definition grid : list Q := [59; 60; 70; 72; 1 # 2]%Q.

Definition gridded_reader : FY4B_AGRI_L1 :=
  (set_geo_desc project reader (Some grid)).1.

End Demo.


(** Whether a call returned. *)
Definition succeeds {A} (r : result A) : bool :=
  match r with
  | Ok _ => true
  | Raise _ => false
  end.

(** ** The script at the end of the module *)

Section Script.

Variable latlon2linecolumn :
  list (list float) -> list (list float) -> string ->
  result (list (list float) * list (list float)).

Variable interp_grid :
  string -> list Q -> list Q -> list (list float) ->
  list (list float) -> list (list float) -> result (list (list float)).

Definition main_filename : string :=
  "2022_06_05/FY4B-_AGRI--_N_DISK_1330E_L1-_FDI-_MULT_NOM_20220604200000_20220604201459_4000M_V0001.HDF".

Definition main_geo_desc : list Q := [17; 54; 73; 135; 1 # 10]%Q.

(** The block under [if __name__ == "__main__"]: the value it prints. *)
Definition main (fs : gmap string HDF) : result DataArray :=
  file ← init latlon2linecolumn fs main_filename (Some main_geo_desc);
  (extract latlon2linecolumn interp_grid file "Channel02" "reflectance" None
     default_interp_method).2.

End Script.

(** ** Further data for the examples *)

Module Edge.

(** A grid with a NaN entry beside a fill entry, as resampling off the
    disk produces. *)
Definition nan_grid : DataArray :=
  Demo.nom "NOMChannel07" [[NaN; Fin 255; Fin 7]; [Fin 1; Fin 300; Fin (-1)]].

(** A grid whose attributes lack [FillValue]. *)
Definition bare_grid : DataArray :=
  {| name := Some "NOMChannel07"; dims := ["line"; "column"]; coords := ∅;
     values := [[Fin 1; Fin 2]]; attrs := ∅ |}.

(** A product that holds channel 2 alone, with a coefficient array of one
    row and no lookup curve. *)
Definition single_channel : FY4B_AGRI_L1 :=
  {| ds := {["NOMChannel02" := Demo.nom02]};
     cal := {| CALIBRATION_COEF := Some [[Fin (1 # 10); Fin 0]]; curves := ∅ |};
     resolution := "0500M";
     line_begin := 0; line_end := 1; column_begin := 0; column_end := 2;
     line := None; column := None; geo_desc := None |}.

(** A projection that always raises. *)
Definition failing_project (lat_mesh lon_mesh : list (list float)) (res : string)
    : result (list (list float) * list (list float)) :=
  Raise (KeyError res).

(** A file system that holds the demo product under the file name of the
    script. *)
Definition main_fs : gmap string HDF := {[main_filename := Demo.file]}.





End Edge.

(** * Properties *)

(** ** The built-ins on small inputs *)

Example slice_resolution : Py.slice Demo.path (-15) (-10) = "4000M".
Proof. reflexivity. Qed.

Example slice_short : Py.slice "4000M_V1.HDF" (-15) (-10) = "40".
Proof. reflexivity. Qed.

Example slice_from_channel : Py.slice_from "Channel07" (-2) = "07".
Proof. reflexivity. Qed.

Example int_07 : Py.int "07" = Ok 7%Z.
Proof. reflexivity. Qed.

Example int_neg : Py.int "-1" = Ok (-1)%Z.
Proof. reflexivity. Qed.

Example int_bad :
  Py.int "l7" = Raise (ValueError "invalid literal for int() with base 10: 'l7'").
Proof. reflexivity. Qed.

Example range_3_6 : Py.range 3 6 = [3; 4; 5]%Z.
Proof. reflexivity. Qed.

Example getitem_last : Py.getitem [10; 20; 30]%Z (-1) = Ok 30%Z.
Proof. reflexivity. Qed.

Example arange_down : Np.arange 3 (-1) (-1) = Ok [3; 2; 1; 0]%Q.
Proof. vm_compute. reflexivity. Qed.

(** [np.arange(0, 1, 0.3)] ends in 0.8999999999999999, not in 0.9. *)
Example arange_tenths :
  Np.arange 0 1 (Double.round (3 # 10))
  = Ok [0; Double.round (3 # 10); Double.round (6 # 10);
        2026619832316723 # 2251799813685248]%Q
  /\ ~ (2026619832316723 # 2251799813685248 == Double.round (9 # 10))%Q.
Proof.
  split; [vm_compute; reflexivity|].
  intros E. apply Qeq_bool_iff in E. vm_compute in E. discriminate.
Qed.

Example arange_zero_step :
  Np.arange 0 1 0 = Raise (ZeroDivisionError "float division by zero").
Proof. reflexivity. Qed.

Example contents_4000M : length <$> CONTENTS !! "4000M" = Some 14%nat.
Proof. reflexivity. Qed.

(** ** The result monad *)

Lemma mapM_Ok {A B} (f : A -> result B) (g : A -> B) (l : list A) :
  (forall x, f x = Ok (g x)) -> mapM f l = Ok (map g l).
Proof.
  intros Hf. induction l as [|a l IH]; [reflexivity|].
  cbn. cbn in IH. rewrite Hf, IH. reflexivity.
Qed.

Lemma is_Ok_Ok {A} (a : A) : is_Ok (Ok a).
Proof. exists a; reflexivity. Qed.

Lemma not_is_Ok_Raise {A} (e : exn) : ~ is_Ok (@Raise A e).
Proof. intros [a Ha]; discriminate. Qed.

(** ** Cells of mapped grids *)

Lemma cell_map_values (f : float -> float) (da : DataArray) (i j : nat) :
  cell (map_values f da) i j = f <$> cell da i j.
Proof.
  unfold cell, map_values; cbn.
  rewrite list_lookup_fmap.
  destruct (values da !! i) as [row|]; cbn; [|reflexivity].
  apply list_lookup_fmap.
Qed.

Lemma lookup_map2 {A B} (f : A -> B) (v : list (list A)) (i j : nat) :
  (match map (map f) v !! i with Some row => row !! j | None => None end)
  = f <$> (match v !! i with Some row => row !! j | None => None end).
Proof.
  change (map (map f) v) with (map f <$> v).
  rewrite list_lookup_fmap.
  destruct (v !! i) as [row|]; cbn; [|reflexivity].
  apply (list_lookup_fmap f).
Qed.

(** ** [interp] with its default method *)

Lemma interp_eq (c : Curve) (da : DataArray) :
  interp c da =
  Ok {| name := cname c; dims := dims da; coords := coords da;
        values := map (map (fun v => Interp1d.linear (rows c).*1 (rows c).*2 v))
                    (values da);
        attrs := cattrs c |}.
Proof.
  unfold interp.
  rewrite (mapM_Ok _ (map (fun v => Interp1d.linear (rows c).*1 (rows c).*2 v))).
  - reflexivity.
  - intros row. apply mapM_Ok. intros v. reflexivity.
Qed.

(** ** The three outcomes of [calibrate] *)

Lemma calibrate_dn (self : FY4B_AGRI_L1) (channel_name : string) (dn : DataArray) :
  calibrate self channel_name "dn" dn = Ok (set_attrs {["units" := AStr "DN"]} dn).
Proof. reflexivity. Qed.

Lemma FillValue_fillna (fill : Q) (dn : DataArray) :
  FillValue (fillna fill dn) = FillValue dn.
Proof. reflexivity. Qed.

Lemma calibrate_linear_path (self : FY4B_AGRI_L1) (channel_name calibration : string)
    (n : Z) (fill : Q) (coef : list (list float)) (k b : float) (dn : DataArray) :
  calibration = "reflectance" /\ (n <= 6)%Z \/ calibration = "radiance" /\ (6 < n)%Z ->
  Py.int (Py.slice_from channel_name (-2)) = Ok n ->
  FillValue dn = Ok fill ->
  CALIBRATION_COEF (cal self) = Some coef ->
  Py.getitem coef (n - 1) = Ok [k; b] ->
  calibrate self channel_name calibration dn =
  Ok {| name := Some (channel_name ++ "_" ++ calibration);
        dims := dims dn; coords := coords dn;
        values := map (map (linear_cell k b fill)) (values dn);
        attrs := {["units" := units_of calibration]} |}.
Proof.
  intros Hsel Hn Hfill Hcoef Hrow.
  unfold calibrate.
  assert (Hdn : String.eqb calibration "dn" = false)
    by (destruct Hsel as [[-> _]|[-> _]]; reflexivity).
  rewrite Hdn, Hn. cbn [mbind result_bind].
  rewrite Hfill. cbn [mbind result_bind].
  assert (Hb : String.eqb calibration "reflectance" && (n <=? 6)%Z
               || String.eqb calibration "radiance" && (6 <? n)%Z = true).
  { destruct Hsel as [[-> H]|[-> H]]; cbn.
    - apply Z.leb_le in H. rewrite H. reflexivity.
    - apply Z.ltb_lt in H. rewrite H. reflexivity. }
  rewrite Hb, Hcoef. cbn [of_option mbind result_bind].
  rewrite Hrow. cbn [unpack2 mbind result_bind].
  rewrite FillValue_fillna, Hfill. cbn [mbind result_bind fst snd].
  unfold set_name, set_attrs, scale_offset, where_ne, fillna, map_values; cbn.
  rewrite !map_map. do 2 f_equal.
  apply map_ext. intros row. rewrite !map_map. reflexivity.
Qed.

Lemma calibrate_lookup_path (self : FY4B_AGRI_L1) (channel_name : string)
    (n : Z) (fill : Q) (c : Curve) (dn : DataArray) :
  (6 < n)%Z ->
  Py.int (Py.slice_from channel_name (-2)) = Ok n ->
  FillValue dn = Ok fill ->
  curves (cal self) !! ("CAL" ++ channel_name) = Some c ->
  calibrate self channel_name "brightness_temperature" dn =
  Ok {| name := Some (channel_name ++ "_brightness_temperature");
        dims := dims dn; coords := coords dn;
        values := map (map (lookup_cell c fill)) (values dn);
        attrs := {["units" := AStr "K"]} |}.
Proof.
  intros Hgt Hn Hfill Hc.
  unfold calibrate.
  change (String.eqb "brightness_temperature" "dn") with false. cbv iota.
  rewrite Hn. cbn [mbind result_bind].
  rewrite Hfill. cbn [mbind result_bind].
  change (String.eqb "brightness_temperature" "reflectance") with false.
  change (String.eqb "brightness_temperature" "radiance") with false.
  change (String.eqb "brightness_temperature" "brightness_temperature") with true.
  apply Z.ltb_lt in Hgt. rewrite Hgt. cbn [andb orb].
  rewrite Hc. cbn [of_option mbind result_bind].
  rewrite interp_eq. cbn [mbind result_bind].
  unfold set_name, set_attrs, fillna, map_values, lookup_cell; cbn.
  rewrite map_map. do 2 f_equal.
  apply map_ext. intros row. rewrite map_map. reflexivity.
Qed.

Lemma calibrate_undefined (self : FY4B_AGRI_L1) (channel_name calibration : string)
    (n : Z) (fill : Q) (dn : DataArray) :
  calibration <> "dn" ->
  ~ (calibration = "reflectance" /\ (n <= 6)%Z) ->
  ~ (calibration = "radiance" /\ (6 < n)%Z) ->
  ~ (calibration = "brightness_temperature" /\ (6 < n)%Z) ->
  Py.int (Py.slice_from channel_name (-2)) = Ok n ->
  FillValue dn = Ok fill ->
  calibrate self channel_name calibration dn =
  Raise (ValueError (channel_name ++ "没有" ++ calibration ++ "的定标方式")).
Proof.
  intros Hdn Hrefl Hrad Hbt Hn Hfill.
  unfold calibrate.
  apply String.eqb_neq in Hdn. rewrite Hdn, Hn. cbn [mbind result_bind].
  rewrite Hfill. cbn [mbind result_bind].
  assert (H1 : String.eqb calibration "reflectance" && (n <=? 6)%Z = false).
  { apply andb_false_iff.
    destruct (String.eqb_spec calibration "reflectance") as [E|E]; [|by left].
    right. apply Z.leb_gt. destruct (Z.lt_ge_cases 6 n); [done|]. exfalso. apply Hrefl. done. }
  assert (H2 : String.eqb calibration "radiance" && (6 <? n)%Z = false).
  { apply andb_false_iff.
    destruct (String.eqb_spec calibration "radiance") as [E|E]; [|by left].
    right. apply Z.ltb_ge. destruct (Z.le_gt_cases n 6); [done|]. exfalso. apply Hrad. split; [done|lia]. }
  assert (H3 : String.eqb calibration "brightness_temperature" && (6 <? n)%Z = false).
  { apply andb_false_iff.
    destruct (String.eqb_spec calibration "brightness_temperature") as [E|E]; [|by left].
    right. apply Z.ltb_ge. destruct (Z.le_gt_cases n 6); [done|]. exfalso. apply Hbt. split; [done|lia]. }
  rewrite H1, H2, H3. reflexivity.
Qed.

(** ** The demo product under the constructor *)

Example init_native : init Demo.project Demo.fs Demo.path None = Ok Demo.reader.
Proof. reflexivity. Qed.

Example init_gridded :
  init Demo.project Demo.fs Demo.path (Some Demo.grid) = Ok Demo.gridded_reader.
Proof. vm_compute. reflexivity. Qed.

Example gridded_axes :
  (fun l => (map Qred <$> coords l !! "lat", map Qred <$> coords l !! "lon"))
    <$> line Demo.gridded_reader
  = Some (Some [60; 119 # 2; 59]%Q, Some [70; 141 # 2; 71; 143 # 2; 72]%Q).
Proof. vm_compute. reflexivity. Qed.

(** ** Slices of strings *)



(** ** What [set_geo_desc] leaves alone *)

Section Frame.

Variable latlon2linecolumn :
  list (list float) -> list (list float) -> string ->
  result (list (list float) * list (list float)).

Lemma set_geo_desc_frame (self : FY4B_AGRI_L1) (g : option (list Q)) :
  let self' := (set_geo_desc latlon2linecolumn self g).1 in
  ds self' = ds self /\ cal self' = cal self /\
  resolution self' = resolution self /\
  line_begin self' = line_begin self /\ line_end self' = line_end self /\
  column_begin self' = column_begin self /\ column_end self' = column_end self.
Proof.
  unfold set_geo_desc. repeat case_match; cbn; repeat split; reflexivity.
Qed.



End Frame.


(** ** The raw passthrough *)

Lemma calibrate_dn_name (self : FY4B_AGRI_L1) (channel_name : string) (dn : DataArray) :
  exists out, calibrate self channel_name "dn" dn = Ok out /\
              name out = name dn /\ values out = values dn /\
              attrs out = {["units" := AStr "DN"]}.
Proof. eexists. split; [apply calibrate_dn|]. repeat split. Qed.

(** C8: on the raw passthrough the returned grid has the unit tag "DN" but
    keeps the name of the grid it was given: for the variable
    [NOMChannel02] the result is named "NOMChannel02", not "Channel02_dn". *)
Theorem calibrate_dn_keeps_name :
  exists out, calibrate Demo.reader "Channel02" "dn" Demo.nom02 = Ok out /\
              attrs out !! "units" = Some (AStr "DN") /\
              name out = Some "NOMChannel02" /\
              name out <> Some ("Channel02" ++ "_" ++ "dn").
Proof.
  eexists. split; [apply calibrate_dn|]. repeat split. discriminate.
Qed.

Example extract_dn_keeps_name :
  match (extract Demo.project Demo.sample Demo.reader "Channel02" "dn" None
           default_interp_method).2 with
  | Ok out => name out
  | Raise _ => None
  end = Some "NOMChannel02".
Proof. vm_compute. reflexivity. Qed.

(** ** Fill values *)

Lemma fill_nan_finite (fill : Q) (x : float) : is_finite (fill_nan fill x).
Proof. destruct x; exact I. Qed.

Lemma linear_cell_fill (k b : float) (fill d : Q) :
  (d == fill)%Q -> linear_cell k b fill (Fin d) = NaN.
Proof.
  intros E. unfold linear_cell, mask_eq, fill_nan, fne.
  apply Qeq_bool_iff in E. rewrite E. cbn. destruct k; reflexivity.
Qed.

Lemma linear_cell_nan (k b : float) (fill : Q) : linear_cell k b fill NaN = NaN.
Proof.
  unfold linear_cell, mask_eq, fill_nan, fne.
  rewrite (proj2 (Qeq_bool_iff fill fill) (Qeq_refl fill)). cbn. destruct k; reflexivity.
Qed.

Lemma linear_cell_valid (k b : float) (fill d : Q) :
  ~ (d == fill)%Q -> linear_cell k b fill (Fin d) = fadd (fmul k (Fin d)) b.
Proof.
  intros E. unfold linear_cell, mask_eq, fill_nan, fne.
  destruct (Qeq_bool d fill) eqn:Eb; [|reflexivity].
  apply Qeq_bool_iff in Eb. contradiction.
Qed.

(** On the linear path every fill entry, and every NaN, comes out as NaN,
    and an entry's output depends on that entry alone. *)
Lemma calibrate_linear_fill (self : FY4B_AGRI_L1) (channel_name calibration : string)
    (n : Z) (fill : Q) (coef : list (list float)) (k b : float) (dn : DataArray) :
  calibration = "reflectance" /\ (n <= 6)%Z \/ calibration = "radiance" /\ (6 < n)%Z ->
  Py.int (Py.slice_from channel_name (-2)) = Ok n ->
  FillValue dn = Ok fill ->
  CALIBRATION_COEF (cal self) = Some coef ->
  Py.getitem coef (n - 1) = Ok [k; b] ->
  exists out, calibrate self channel_name calibration dn = Ok out /\
    (forall i j, cell out i j = linear_cell k b fill <$> cell dn i j) /\
    (forall i j d, cell dn i j = Some (Fin d) -> (d == fill)%Q -> cell out i j = Some NaN).
Proof.
  intros Hsel Hn Hfill Hcoef Hrow.
  eexists. split; [eapply calibrate_linear_path; eassumption|].
  assert (Hcell : forall i j,
    cell {| name := Some (channel_name ++ "_" ++ calibration); dims := dims dn;
            coords := coords dn;
            values := map (map (linear_cell k b fill)) (values dn);
            attrs := {["units" := units_of calibration]} |} i j
    = linear_cell k b fill <$> cell dn i j).
  { intros i j. unfold cell; cbn. apply lookup_map2. }
  split; [exact Hcell|].
  intros i j d Hd E. rewrite Hcell, Hd. cbn. rewrite linear_cell_fill; done.
Qed.

(** X22: on every path the output at a position is a function of the input at
    that position: fill entries elsewhere in the grid change nothing. *)
Lemma calibrate_entrywise (self : FY4B_AGRI_L1) (channel_name calibration : string)
    (dn1 dn2 out1 out2 : DataArray) (i j : nat) :
  FillValue dn1 = FillValue dn2 ->
  calibrate self channel_name calibration dn1 = Ok out1 ->
  calibrate self channel_name calibration dn2 = Ok out2 ->
  cell dn1 i j = cell dn2 i j ->
  cell out1 i j = cell out2 i j.
Proof.
  intros Hf H1 H2 Hc. unfold calibrate in H1, H2.
  destruct (String.eqb calibration "dn").
  { injection H1 as <-. injection H2 as <-. exact Hc. }
  destruct (Py.int (Py.slice_from channel_name (-2))) as [n|]; [|discriminate].
  cbn [mbind result_bind] in H1, H2.
  rewrite Hf in H1. destruct (FillValue dn2) as [fill|] eqn:Ef; [|discriminate].
  cbn [mbind result_bind] in H1, H2.
  destruct (String.eqb calibration "reflectance" && (n <=? 6)%Z
            || String.eqb calibration "radiance" && (6 <? n)%Z).
  - destruct (CALIBRATION_COEF (cal self)) as [coef|]; [|discriminate].
    cbn [of_option mbind result_bind] in H1, H2.
    destruct (Py.getitem coef (n - 1)) as [row|]; [|discriminate].
    cbn [mbind result_bind] in H1, H2.
    destruct (unpack2 row) as [[k b]|]; [|discriminate].
    cbn [mbind result_bind] in H1, H2.
    rewrite FillValue_fillna, Ef in H2.
    change (FillValue (fillna fill dn1)) with (FillValue dn1) in H1.
    rewrite Hf in H1. cbn [mbind result_bind] in H1, H2.
    injection H1 as <-. injection H2 as <-.
    unfold cell, set_name, set_attrs, scale_offset, where_ne, fillna, map_values; cbn.
    rewrite !lookup_map2. fold (cell dn1 i j) (cell dn2 i j). rewrite Hc. reflexivity.
  - destruct (String.eqb calibration "brightness_temperature" && (6 <? n)%Z);
      [|discriminate].
    destruct (curves (cal self) !! ("CAL" ++ channel_name)) as [c|]; [|discriminate].
    cbn [of_option mbind result_bind] in H1, H2.
    rewrite interp_eq in H1, H2. cbn [mbind result_bind] in H1, H2.
    injection H1 as <-. injection H2 as <-.
    unfold cell, set_name, set_attrs, fillna, map_values; cbn.
    rewrite !lookup_map2. fold (cell dn1 i j) (cell dn2 i j). rewrite Hc. reflexivity.
Qed.

(** C1: on the lookup path a fill entry is looked up in the curve like
    any other digital number.  With the fill value 255 and the curve of
    channel 7 holding an entry for each code 0 .. 255, the fill entry of
    the grid comes out as the finite temperature 272.5, the curve's entry
    for 255, where the linear path gives NaN. *)
Theorem calibrate_bt_fill_looked_up :
  exists out q q',
    calibrate Demo.reader "Channel07" "brightness_temperature" Demo.nom07 = Ok out /\
    cell Demo.nom07 0 1 = Some (Fin Demo.fill) /\
    cell out 0 1 = Some (Fin q) /\ (q == 545 # 2)%Q /\
    cvalues Demo.curve07 !! 255%nat = Some (Fin q') /\ (q' == 545 # 2)%Q.
Proof.
  eexists. eexists. eexists. split.
  - eapply (calibrate_lookup_path _ _ 7 Demo.fill Demo.curve07); reflexivity.
  - split; [reflexivity|]. split; [vm_compute; reflexivity|].
    split; [reflexivity|]. split; [vm_compute; reflexivity|reflexivity].
Qed.

Example calibrate_radiance_fill_masked :
  match calibrate Demo.reader "Channel07" "radiance" Demo.nom07 with
  | Ok out => cell out 0 1
  | Raise _ => None
  end = Some NaN.
Proof. vm_compute. reflexivity. Qed.

(** ** Which pairs of channel and quantity are calibrated *)

Lemma getitem_nonneg {A} (l : list A) (i : Z) (x : A) :
  (0 <= i)%Z -> l !! Z.to_nat i = Some x -> Py.getitem l i = Ok x.
Proof.
  intros Hi Hx. unfold Py.getitem.
  destruct (i <? 0)%Z eqn:E; [apply Z.ltb_lt in E; lia|].
  rewrite E, Hx. reflexivity.
Qed.

(** The claim of C3 read on the ordinal 0 and on a product without the
    channel's coefficient row.  The pair of "Channel00" and reflectance is
    outside the defined set, whose reflective channels are 1 to 6, so the
    call would raise; the code tests [channel_num <= 6] alone, reads row
    [-1] of the coefficient array, the last one, and returns a grid, whose
    entry for the digital number 10 is [1.4 * 10 + 14 = 28].  The pair of
    "Channel02" and reflectance is inside the set, so the call would not
    raise; on a coefficient array of one row it raises [IndexError]. *)
Lemma calibrate_ordinal_zero_returns :
  (Py.int (Py.slice_from "Channel00" (-2)) = Ok 0%Z /\
   defined_pair 0 "reflectance" = false /\
   exists out q,
     calibrate Demo.reader "Channel00" "reflectance" Demo.nom02 = Ok out /\
     cell Demo.nom02 0 0 = Some (Fin 10) /\
     cell out 0 0 = Some (Fin q) /\ (q == 28)%Q) /\
  (Py.int (Py.slice_from "Channel02" (-2)) = Ok 2%Z /\
   defined_pair 2 "reflectance" = true /\
   calibrate Edge.single_channel "Channel02" "reflectance" Demo.nom02
   = Raise (IndexError "index out of bounds")).
Proof.
  split.
  - split; [reflexivity|]. split; [reflexivity|].
    eexists. eexists.
    split; [vm_compute; reflexivity|]. split; [reflexivity|].
    split; [vm_compute; reflexivity|]. reflexivity.
  - split; [reflexivity|]. split; [reflexivity|]. vm_compute. reflexivity.
Qed.

(** C3, amended: the raw passthrough never raises.  For a channel name
    that ends in an ordinal [n] and a grid with a fill value, [calibrate]
    raises the calibration error, a [ValueError] naming the channel and the
    quantity, on every pair outside the defined set other than reflectance
    with an ordinal of zero or below, and so for reflectance on a channel
    above 6.  On a pair inside the set the call returns a grid when the
    calibration data that its path reads is there: the channel's row
    [[k, b]] of the coefficient array for reflectance and radiance, the
    channel's lookup curve for brightness temperature.  The lookup is stated
    for a grid that has an entry: the library's interpolation refuses an
    empty one, which the model of [interp] does not show. *)
Theorem calibrate_defined_pairs (self : FY4B_AGRI_L1)
    (channel_name calibration : string) (n : Z) (fill : Q) (dn : DataArray) :
  (defined_pair n calibration = true <->
   calibration = "dn" \/
   calibration = "reflectance" /\ (1 <= n <= 6)%Z \/
   calibration = "radiance" /\ (6 < n)%Z \/
   calibration = "brightness_temperature" /\ (6 < n)%Z) /\
  is_Ok (calibrate self channel_name "dn" dn) /\
  (Py.int (Py.slice_from channel_name (-2)) = Ok n ->
   FillValue dn = Ok fill ->
   (defined_pair n calibration = false ->
    ~ (calibration = "reflectance" /\ (n <= 0)%Z) ->
    calibrate self channel_name calibration dn =
    Raise (ValueError (channel_name ++ "没有" ++ calibration ++ "的定标方式"))) /\
   (calibration = "reflectance" /\ (1 <= n <= 6)%Z \/
    calibration = "radiance" /\ (6 < n)%Z ->
    (exists coef k b, CALIBRATION_COEF (cal self) = Some coef /\
                      coef !! Z.to_nat (n - 1) = Some [k; b]) ->
    is_Ok (calibrate self channel_name calibration dn)) /\
   (calibration = "brightness_temperature" /\ (6 < n)%Z ->
    is_Some (curves (cal self) !! ("CAL" ++ channel_name)) ->
    values dn <> [] -> Forall (fun r => r <> []) (values dn) ->
    is_Ok (calibrate self channel_name calibration dn)) /\
   ((6 < n)%Z ->
    calibrate self channel_name "reflectance" dn =
    Raise (ValueError (channel_name ++ "没有" ++ "reflectance" ++ "的定标方式")))).
Proof.
  assert (Hset : defined_pair n calibration = true <->
            calibration = "dn" \/
            calibration = "reflectance" /\ (1 <= n <= 6)%Z \/
            calibration = "radiance" /\ (6 < n)%Z \/
            calibration = "brightness_temperature" /\ (6 < n)%Z).
  { unfold defined_pair.
    rewrite !orb_true_iff, !andb_true_iff, !String.eqb_eq, !Z.leb_le, !Z.ltb_lt.
    intuition. }
  split; [exact Hset|]. split; [rewrite calibrate_dn; apply is_Ok_Ok|].
  intros Hn Hfill. split; [|split; [|split]].
  - intros Hdef Hzero.
    assert (Hout : ~ (calibration = "dn" \/
              calibration = "reflectance" /\ (1 <= n <= 6)%Z \/
              calibration = "radiance" /\ (6 < n)%Z \/
              calibration = "brightness_temperature" /\ (6 < n)%Z)).
    { intros Hin. apply Hset in Hin. rewrite Hin in Hdef. discriminate. }
    apply (calibrate_undefined self channel_name calibration n fill dn);
      try assumption.
    + intros E. apply Hout. left. exact E.
    + intros [E Hle]. destruct (Z_le_gt_dec n 0) as [H0|H0].
      * apply Hzero. split; assumption.
      * apply Hout. right; left. split; [exact E|lia].
    + intros H. apply Hout. right; right; left. exact H.
    + intros H. apply Hout. right; right; right. exact H.
  - intros Hsel (coef & k & b & Hcoef & Hrow).
    rewrite (calibrate_linear_path self channel_name calibration n fill coef k b);
      [apply is_Ok_Ok| |done..|].
    + destruct Hsel as [[E H]|[E H]]; [left|right]; (split; [exact E|lia]).
    + apply getitem_nonneg; [destruct Hsel as [[_ H]|[_ H]]; lia|done].
  - intros [-> Hlt] [c Hc] _ _.
    rewrite (calibrate_lookup_path self channel_name n fill c); [apply is_Ok_Ok|done..].
  - intros Hlt.
    apply (calibrate_undefined self channel_name "reflectance" n fill dn);
      try assumption; try discriminate.
    + intros [_ Hle]. lia.
    + intros [E _]. discriminate.
    + intros [E _]. discriminate.
Qed.

Lemma calibrate_defined_pairs_witness :
  calibrate Demo.reader "Channel07" "reflectance" Demo.nom07 =
    Raise (ValueError "Channel07没有reflectance的定标方式") /\
  calibrate Demo.reader "Channel02" "brightness_temperature" Demo.nom02 =
    Raise (ValueError "Channel02没有brightness_temperature的定标方式") /\
  calibrate Demo.reader "Channel00" "radiance" Demo.nom02 =
    Raise (ValueError "Channel00没有radiance的定标方式") /\
  is_Ok (calibrate Edge.single_channel "Channel01" "reflectance" Demo.nom02) /\
  is_Ok (calibrate Demo.reader "Channel07" "radiance" Demo.nom07) /\
  is_Ok (calibrate Demo.reader "Channel07" "brightness_temperature" Demo.nom07).
Proof.
  destruct (calibrate_defined_pairs Demo.reader "Channel07" "reflectance" 7
              Demo.fill Demo.nom07) as (_ & _ & H1).
  destruct (H1 ltac:(reflexivity) ltac:(reflexivity)) as (H1' & _).
  destruct (calibrate_defined_pairs Demo.reader "Channel02" "brightness_temperature" 2
              Demo.fill Demo.nom02) as (_ & _ & H2).
  destruct (H2 ltac:(reflexivity) ltac:(reflexivity)) as (H2' & _).
  destruct (calibrate_defined_pairs Demo.reader "Channel00" "radiance" 0
              Demo.fill Demo.nom02) as (_ & _ & H3).
  destruct (H3 ltac:(reflexivity) ltac:(reflexivity)) as (H3' & _).
  destruct (calibrate_defined_pairs Edge.single_channel "Channel01" "reflectance" 1
              Demo.fill Demo.nom02) as (_ & _ & H4).
  destruct (H4 ltac:(reflexivity) ltac:(reflexivity)) as (_ & H4' & _).
  destruct (calibrate_defined_pairs Demo.reader "Channel07" "radiance" 7
              Demo.fill Demo.nom07) as (_ & _ & H5).
  destruct (H5 ltac:(reflexivity) ltac:(reflexivity)) as (_ & H5' & _).
  destruct (calibrate_defined_pairs Demo.reader "Channel07" "brightness_temperature" 7
              Demo.fill Demo.nom07) as (_ & _ & H6).
  destruct (H6 ltac:(reflexivity) ltac:(reflexivity)) as (_ & _ & H6' & _).
  split; [|split; [|split; [|split; [|split]]]].
  - apply H1'; [reflexivity|]. intros [_ H]. lia.
  - apply H2'; [reflexivity|]. intros [E _]. discriminate.
  - apply H3'; [reflexivity|]. intros [E _]. discriminate.
  - apply H4'.
    + left. split; [reflexivity|lia].
    + exists [[Fin (1 # 10); Fin 0]], (Fin (1 # 10)), (Fin 0). split; reflexivity.
  - apply H5'.
    + right. split; [reflexivity|lia].
    + exists Demo.coef, (Fin (inject_Z 7 / 10)), (Fin (inject_Z 7)).
      split; reflexivity.
  - apply H6'.
    + split; [reflexivity|lia].
    + exists Demo.curve07. reflexivity.
    + discriminate.
    + repeat constructor; discriminate.
Defined.

(** ** The linear path *)

(** The claim of C2 read on channel 2: the output would be [k1 * d + b1]
    with the first row [[k1, b1]] of the coefficient array.  The code takes
    row [channel_num - 1], the second row: the entry 10 of channel 2 comes
    out as [0.2 * 10 + 2 = 4], not as [0.1 * 10 + 1 = 2]. *)
Lemma calibrate_channel2_not_first_row :
  exists out k1 b1 q,
    calibrate Demo.reader "Channel02" "reflectance" Demo.nom02 = Ok out /\
    Demo.coef !! 0%nat = Some [k1; b1] /\
    cell Demo.nom02 0 0 = Some (Fin 10) /\
    cell out 0 0 = Some (Fin q) /\ (q == 4)%Q /\
    ~ feq (Fin q) (fadd (fmul k1 (Fin 10)) b1).
Proof.
  eexists. exists (Fin (inject_Z 1 / 10)), (Fin (inject_Z 1)). eexists.
  split.
  - eapply (calibrate_linear_path _ _ _ 2 Demo.fill Demo.coef); try reflexivity.
    left. split; [reflexivity|lia].
  - split; [reflexivity|]. split; [reflexivity|].
    split; [vm_compute; reflexivity|]. split; [reflexivity|].
    cbn. intros E. vm_compute in E. discriminate.
Qed.

(** C2, amended: for a channel of ordinal [n] in 1 .. 6 whose coefficients
    [[k, b]] are row [n - 1] of the coefficient array, every entry [d] other
    than the fill value comes out as [k * d + b], and the result is tagged
    with the unit "100%"; for channel 2 the row is the second one. *)
Theorem calibrate_reflectance_linear (self : FY4B_AGRI_L1) (channel_name : string)
    (n : Z) (fill : Q) (coef : list (list float)) (k b : float) (dn : DataArray) :
  Py.int (Py.slice_from channel_name (-2)) = Ok n ->
  (1 <= n <= 6)%Z ->
  FillValue dn = Ok fill ->
  CALIBRATION_COEF (cal self) = Some coef ->
  coef !! Z.to_nat (n - 1) = Some [k; b] ->
  exists out,
    calibrate self channel_name "reflectance" dn = Ok out /\
    attrs out !! "units" = Some (AStr "100%") /\
    forall i j d, cell dn i j = Some (Fin d) -> ~ (d == fill)%Q ->
                  cell out i j = Some (fadd (fmul k (Fin d)) b).
Proof.
  intros Hn Hrange Hfill Hcoef Hrow.
  eexists. split.
  - eapply (calibrate_linear_path self channel_name "reflectance" n fill coef k b);
      [left; split; [reflexivity|lia]|done..|].
    apply getitem_nonneg; [lia|done].
  - split; [reflexivity|].
    intros i j d Hd Hne. unfold cell; cbn.
    rewrite lookup_map2. fold (cell dn i j). rewrite Hd. cbn.
    rewrite linear_cell_valid; done.
Qed.

Lemma calibrate_reflectance_linear_witness :
  exists out,
    calibrate Demo.reader "Channel02" "reflectance" Demo.nom02 = Ok out /\
    attrs out !! "units" = Some (AStr "100%") /\
    forall i j d, cell Demo.nom02 i j = Some (Fin d) -> ~ (d == Demo.fill)%Q ->
                  cell out i j = Some (fadd (fmul (Fin (inject_Z 2 / 10)) (Fin d)) (Fin (inject_Z 2))).
Proof.
  apply (calibrate_reflectance_linear Demo.reader "Channel02" 2 Demo.fill Demo.coef);
    [reflexivity|lia|reflexivity|reflexivity|reflexivity].
Defined.

(** ** The mesh of [set_geo_desc] *)

(** C6: [set_geo_desc] multiplies the five parameters by 1000 and rounds
    nothing.  For the grid [[59, 60, 70, 72, 0.0625]], whose scaled values
    and their sums are all exact in binary floating point, the step stays
    0.0625 and the second latitude of the mesh is 59.9375; neither is a
    multiple of 0.001. *)
Theorem set_geo_desc_not_quantized :
  exists self' l lat x,
    set_geo_desc Demo.project Demo.reader (Some [59; 60; 70; 72; 1 # 16]%Q)
      = (self', Ok tt) /\
    geo_desc self' = Some [59; 60; 70; 72; 1 # 16]%Q /\
    line self' = Some l /\ coords l !! "lat" = Some lat /\
    lat !! 1%nat = Some x /\ (x == 959 # 16)%Q /\
    ~ three_decimals x /\ ~ three_decimals (1 # 16).
Proof.
  eexists. eexists. eexists. eexists.
  split; [vm_compute; reflexivity|].
  split; [reflexivity|]. split; [reflexivity|].
  split; [vm_compute; reflexivity|]. split; [reflexivity|].
  split; [reflexivity|].
  split; intros [z Hz]; unfold Qeq in Hz; cbn in Hz; lia.
Qed.

(** ** Rounding to a double *)

Lemma scale_le (n d e : Z) :
  (0 < n)%Z -> (0 < d)%Z -> (e <= Z.log2 n - Z.log2 d - 1)%Z ->
  (0 < (Double.scale n d e).2 <= (Double.scale n d e).1)%Z.
Proof.
  intros Hn Hd He. unfold Double.scale.
  destruct (Z.log2_spec n Hn) as [Hn1 _].
  destruct (Z.log2_spec d Hd) as [_ Hd2].
  pose proof (Z.log2_nonneg n) as Hln. pose proof (Z.log2_nonneg d) as Hld.
  destruct (0 <=? e)%Z eqn:E; cbn [fst snd].
  - apply Z.leb_le in E. split.
    + apply Z.mul_pos_pos; [exact Hd|]. apply Z.pow_pos_nonneg; lia.
    + apply Z.le_trans with (2 ^ Z.log2 n)%Z; [|exact Hn1].
      apply Z.le_trans with (2 ^ Z.succ (Z.log2 d) * 2 ^ e)%Z.
      * apply Z.mul_le_mono_nonneg_r; [apply Z.pow_nonneg; lia|lia].
      * rewrite <- Z.pow_add_r by lia. apply Z.pow_le_mono_r; lia.
  - apply Z.leb_gt in E. split; [exact Hd|].
    apply Z.le_trans with (2 ^ Z.succ (Z.log2 d))%Z; [lia|].
    apply Z.le_trans with (2 ^ Z.log2 n * 2 ^ (- e))%Z.
    + rewrite <- Z.pow_add_r by lia. apply Z.pow_le_mono_r; lia.
    + apply Z.mul_le_mono_nonneg_r; [apply Z.pow_nonneg; lia|exact Hn1].
Qed.

Lemma round_div_pos (a b : Z) : (0 < b <= a)%Z -> (0 < Double.round_div a b)%Z.
Proof.
  intros [Hb Hab]. unfold Double.round_div.
  assert (1 <= a / b)%Z as Hq by (apply Z.div_le_lower_bound; lia).
  destruct (2 * (a mod b) ?= b)%Z; [destruct (Z.even (a / b))|..]; lia.
Qed.

Lemma exponent_le (n d : Z) : (Double.exponent n d <= Z.log2 n - Z.log2 d)%Z.
Proof.
  unfold Double.exponent.
  destruct (Double.scale n d (Z.log2 n - Z.log2 d)) as [a b].
  destruct (b <=? a)%Z; lia.
Qed.

Lemma ldexp_pos (m e : Z) : (0 < m)%Z -> (0 < Double.ldexp m e)%Q.
Proof.
  intros Hm. unfold Double.ldexp. destruct (0 <=? e)%Z eqn:E.
  - apply Z.leb_le in E. unfold Qlt. cbn.
    rewrite ?Z.mul_1_r. apply Z.mul_pos_pos; [exact Hm|]. apply Z.pow_pos_nonneg; lia.
  - rewrite Qred_correct. unfold Qlt. cbn. lia.
Qed.

Lemma round_pos_pos (n d : positive) : (0 < Double.round_pos (Zpos n) (Zpos d))%Q.
Proof.
  unfold Double.round_pos.
  pose proof (exponent_le (Zpos n) (Zpos d)) as He.
  pose proof (scale_le (Zpos n) (Zpos d) (Double.exponent (Zpos n) (Zpos d) - 52)
                ltac:(lia) ltac:(lia) ltac:(lia)) as Hs.
  destruct (Double.scale _ _ _) as [a b]. cbn [fst snd] in Hs.
  apply ldexp_pos, round_div_pos, Hs.
Qed.

(** Zero is a double, and nothing else is rounded to it. *)
Lemma round_zero (q : Q) : (q == 0)%Q -> Double.round q = 0%Q.
Proof.
  unfold Qeq. cbn. rewrite Z.mul_1_r. intros H.
  unfold Double.round. rewrite H. reflexivity.
Qed.

Lemma round_nonzero (q : Q) : ~ (q == 0)%Q -> ~ (Double.round q == 0)%Q.
Proof.
  intros Hq. unfold Double.round. destruct q as [[|n|n] d]; cbn [Qnum Qden].
  - exfalso. apply Hq. reflexivity.
  - pose proof (round_pos_pos n d) as H. intros E. rewrite E in H.
    apply (Qlt_irrefl 0), H.
  - pose proof (round_pos_pos n d) as H. intros E.
    assert (Double.round_pos (Z.pos n) (Z.pos d) == 0)%Q as E'.
    { rewrite <- (Qopp_involutive (Double.round_pos _ _)), E. reflexivity. }
    rewrite E' in H. apply (Qlt_irrefl 0), H.
Qed.

(** The scaled step is zero exactly when the step is. *)
Lemma scaled_zero (x : Q) : (x == 0)%Q -> Double.mul 1000 (Double.round x) = 0%Q.
Proof.
  intros Hx. rewrite (round_zero x Hx). reflexivity.
Qed.

Lemma scaled_nonzero (x : Q) :
  ~ (x == 0)%Q -> ~ (Double.mul 1000 (Double.round x) == 0)%Q.
Proof.
  intros Hx. unfold Double.mul. apply round_nonzero.
  pose proof (round_nonzero x Hx) as Hr. intros E. apply Hr.
  apply Qmult_integral in E as [E|E]; [discriminate|exact E].
Qed.

(** [arange] raises for a zero step and for nothing else. *)
Lemma arange_Ok (s e d : Q) : ~ (d == 0)%Q -> is_Ok (Np.arange s e d).
Proof.
  intros Hd. unfold Np.arange.
  destruct (Qeq_bool d 0) eqn:E; [apply Qeq_bool_iff in E; contradiction|].
  eexists. reflexivity.
Qed.

(** ** The mesh of [set_geo_desc] at a grid one step wide *)

Example literal_4_001 :
  Double.round (4001 # 1000) = (4504725527277339 # 1125899906842624)%Q.
Proof. vm_compute. reflexivity. Qed.

(** [1000 * 4.001] is 4001.0000000000005, one unit in the last place
    above 4001. *)
Example scaled_4_001 :
  Double.mul 1000 (Double.round (4001 # 1000)) = (4001 + (1 # 2199023255552))%Q.
Proof. vm_compute. reflexivity. Qed.

Example arange_4_001 :
  Np.arange (4001 + (1 # 2199023255552)) 3999 (-1)
  = Ok [8798292045463553 # 2199023255552; 8796093022208001 # 2199023255552;
        8793893998952449 # 2199023255552]%Q.
Proof. vm_compute. reflexivity. Qed.

(** C10: on the grid [4, 4.001, 4, 4.001, 0.001], whose spans are one step
    wide, [set_geo_desc] succeeds with three latitudes and three
    longitudes: 4.001, 4.000000000000001 and 3.9990000000000006, and 4,
    4.001 and 4.002.  The southern bound 4 is not among the latitudes, one
    latitude lies south of it and one longitude east of the eastern bound;
    the cached arrays are 3 by 3. *)
Theorem set_geo_desc_off_the_bounds :
  exists self' l c lat lon,
    set_geo_desc Demo.project Demo.reader
      (Some [4; 4001 # 1000; 4; 4001 # 1000; 1 # 1000]%Q) = (self', Ok tt) /\
    line self' = Some l /\ column self' = Some c /\
    coords l !! "lat" = Some lat /\ coords l !! "lon" = Some lon /\
    coords c !! "lat" = Some lat /\ coords c !! "lon" = Some lon /\
    lat = [4504725527277339 # 1125899906842624;
           4503599627370497 # 1125899906842624;
           2251236863731827 # 562949953421312]%Q /\
    lon = [4; 4504725527277339 # 1125899906842624;
           4505851427184181 # 1125899906842624]%Q /\
    (1000 * ((4001 # 1000) - 4) == inject_Z 1 * (1000 * (1 # 1000)))%Q /\
    (forall x, x ∈ lat -> ~ (x == 4)%Q) /\
    (exists x, x ∈ lat /\ (x < 4)%Q) /\
    (exists y, y ∈ lon /\ (Double.round (4001 # 1000) < y)%Q) /\
    Np.has_shape (values l) 3 3 = true /\ Np.has_shape (values c) 3 3 = true.
Proof.
  eexists. eexists. eexists. eexists. eexists.
  split; [vm_compute; reflexivity|].
  split; [reflexivity|]. split; [reflexivity|].
  split; [vm_compute; reflexivity|]. split; [vm_compute; reflexivity|].
  split; [vm_compute; reflexivity|]. split; [vm_compute; reflexivity|].
  split; [reflexivity|]. split; [reflexivity|].
  split; [reflexivity|].
  split.
  { intros x Hx E. repeat (apply elem_of_cons in Hx as [->|Hx]; [discriminate E|]).
    apply elem_of_nil in Hx. exact Hx. }
  split.
  { exists (2251236863731827 # 562949953421312)%Q.
    split; [repeat constructor|reflexivity]. }
  split.
  { exists (4505851427184181 # 1125899906842624)%Q.
    split; [repeat constructor|vm_compute; reflexivity]. }
  split; vm_compute; reflexivity.
Qed.

(** ** Sorting the rows of a curve *)

Lemma strictly_increasing_cons (a : Q) (l : list Q) :
  strictly_increasing (a :: l) ->
  Forall (fun x => (a < x)%Q) l /\ strictly_increasing l.
Proof.
  intros H. split.
  - apply Forall_lookup. intros i x Hx.
    apply (H 0%nat (S i) a x); [reflexivity|exact Hx|lia].
  - intros i j x y Hx Hy Hij.
    apply (H (S i) (S j) x y); [exact Hx|exact Hy|lia].
Qed.

Lemma strictly_decreasing_reverse (l : list Q) :
  strictly_decreasing l -> strictly_increasing (reverse l).
Proof.
  intros H i j x y Hx Hy Hij.
  apply reverse_lookup_Some in Hx as [Hx Hi].
  apply reverse_lookup_Some in Hy as [Hy Hj].
  apply (H _ _ y x Hy Hx). lia.
Qed.

Lemma insert_row_min (r : Q * float) (l : list (Q * float)) :
  Forall (fun r' => (r.1 < r'.1)%Q) l -> insert_row r l = r :: l.
Proof.
  destruct l as [|r' l]; [reflexivity|].
  intros H. apply Forall_cons in H as [H _]. cbn.
  rewrite (proj2 (Qle_bool_iff _ _) (Qlt_le_weak _ _ H)). reflexivity.
Qed.

Lemma sortby_increasing (l : list (Q * float)) :
  strictly_increasing l.*1 -> sortby l = l.
Proof.
  induction l as [|r l IH]; [reflexivity|].
  intros H. change (strictly_increasing (r.1 :: l.*1)) in H.
  apply strictly_increasing_cons in H as [Hmin Hl].
  cbn. rewrite (IH Hl). apply insert_row_min.
  rewrite Forall_fmap in Hmin. exact Hmin.
Qed.

Lemma sortby_snoc_min (r : Q * float) (l : list (Q * float)) :
  Forall (fun r' => (r.1 < r'.1)%Q) l -> sortby (l ++ [r]) = r :: sortby l.
Proof.
  induction l as [|a l IH]; [reflexivity|].
  intros H. apply Forall_cons in H as [Ha Hl].
  cbn. rewrite (IH Hl). cbn.
  destruct (Qle_bool a.1 r.1) eqn:E; [|reflexivity].
  apply Qle_bool_iff in E. lra.
Qed.

Lemma sortby_reverse (l : list (Q * float)) :
  strictly_increasing l.*1 -> sortby (reverse l) = l.
Proof.
  induction l as [|r l IH]; [reflexivity|].
  intros H. change (strictly_increasing (r.1 :: l.*1)) in H.
  apply strictly_increasing_cons in H as [Hmin Hl].
  rewrite reverse_cons, sortby_snoc_min.
  - rewrite (IH Hl). reflexivity.
  - apply Forall_reverse. rewrite Forall_fmap in Hmin. exact Hmin.
Qed.

Lemma zip_reverse {A B} (l : list A) (k : list B) :
  length l = length k -> zip (reverse l) (reverse k) = reverse (zip l k).
Proof.
  revert k. induction l as [|a l IH]; intros [|b k] Hlen; try discriminate; [reflexivity|].
  cbn in Hlen. injection Hlen as Hlen. cbn [zip zip_with].
  rewrite !reverse_cons. rewrite zip_with_app by (rewrite !length_reverse; exact Hlen).
  fold (zip (reverse l) (reverse k)). rewrite (IH k Hlen). reflexivity.
Qed.

(** The rows the interpolator receives from a curve that carries the
    coordinate [dn]. *)
Lemma rows_dn_coordinate (c : Curve) (xs : list Q) :
  ccoords c !! "dn" = Some xs ->
  rows (swap_dims c "dn") = sortby (zip xs (cvalues c)).
Proof. intros H. unfold rows, index, swap_dims; cbn. rewrite H. reflexivity. Qed.


Lemma rows_increasing (c : Curve) (xs : list Q) :
  ccoords c !! "dn" = Some xs -> length xs = length (cvalues c) ->
  strictly_increasing xs ->
  rows (swap_dims c "dn") = zip xs (cvalues c).
Proof.
  intros H Hlen Hinc. rewrite (rows_dn_coordinate c xs H).
  apply sortby_increasing. rewrite fst_zip by lia. exact Hinc.
Qed.

Lemma rows_decreasing (c : Curve) (xs : list Q) :
  ccoords c !! "dn" = Some xs -> length xs = length (cvalues c) ->
  strictly_decreasing xs ->
  rows (swap_dims c "dn") = zip (reverse xs) (reverse (cvalues c)).
Proof.
  intros H Hlen Hdec. rewrite (rows_dn_coordinate c xs H).
  rewrite <- (reverse_involutive (zip xs (cvalues c))).
  rewrite <- zip_reverse by exact Hlen.
  apply sortby_reverse.
  rewrite fst_zip by (rewrite !length_reverse; lia).
  apply strictly_decreasing_reverse. exact Hdec.
Qed.

(** ** Linear interpolation at a breakpoint *)






(** ** The lookup path *)












Section Lookup.

Variable latlon2linecolumn :
  list (list float) -> list (list float) -> string ->
  result (list (list float) * list (list float)).

Variable interp_grid :
  string -> list Q -> list Q -> list (list float) ->
  list (list float) -> list (list float) -> result (list (list float)).

(** Without a grid in effect the argument [interp_method] is not used. *)
Lemma extract_native (self : FY4B_AGRI_L1) (channel_name calibration : string)
    (g : option (list Q)) (m : string) :
  truthy g = false -> truthy (geo_desc self) = false ->
  extract latlon2linecolumn interp_grid self channel_name calibration g m =
  (self, dn_values ← native_dn self channel_name;
         calibrate self channel_name calibration dn_values).
Proof.
  intros Hg Hc. unfold extract.
  assert (E : match g with
              | Some gd =>
                  if truthy g && geo_ne gd (geo_desc self)
                  then set_geo_desc latlon2linecolumn self g else (self, Ok tt)
              | None => (self, Ok tt)
              end = (self, Ok tt)).
  { destruct g as [gd|]; [|reflexivity]. rewrite Hg. reflexivity. }
  rewrite E, Hc. destruct (native_dn self channel_name); reflexivity.
Qed.


End Lookup.


(** ** The cached grid *)

Lemma list_ne_false (a b : list Q) :
  list_ne a b = false -> Forall canonical a -> Forall canonical b -> a = b.
Proof.
  revert b. induction a as [|x a IH]; intros [|y b] Hne Ha Hb;
    try discriminate; [reflexivity|].
  cbn in Hne. apply orb_false_iff in Hne as [Hxy Hab].
  apply negb_false_iff, Qeq_bool_iff, Qred_complete in Hxy.
  apply Forall_cons in Ha as [Hx Ha]. apply Forall_cons in Hb as [Hy Hb].
  unfold canonical in Hx, Hy. rewrite Hx, Hy in Hxy. subst y.
  f_equal. apply IH; assumption.
Qed.

(** The example of C5: the same file, the same arguments and no grid
    supplied, once with no grid cached and once with the grid of the
    constructor cached.  The first call returns the native 2 x 3 grid, the
    second a grid resampled to 3 x 5. *)
Lemma extract_depends_on_cache :
  exists out1 out2,
    Demo.gridded_reader =
      set_cache Demo.reader (line Demo.gridded_reader) (column Demo.gridded_reader)
        (Some Demo.grid) /\
    (extract Demo.project Demo.sample Demo.reader "Channel02" "reflectance"
       None default_interp_method).2 = Ok out1 /\
    (extract Demo.project Demo.sample Demo.gridded_reader "Channel02" "reflectance"
       None default_interp_method).2 = Ok out2 /\
    dims out1 = ["line"; "column"] /\ dims out2 = ["lat"; "lon"] /\
    length (values out1) = 2%nat /\ length (values out2) = 3%nat /\
    out1 <> out2.
Proof.
  eexists. eexists.
  split; [vm_compute; reflexivity|].
  split; [vm_compute; reflexivity|].
  split; [vm_compute; reflexivity|].
  split; [reflexivity|]. split; [reflexivity|].
  split; [reflexivity|]. split; [reflexivity|].
  intros E. apply (f_equal dims) in E. discriminate.
Qed.

Section Cache.

Variable latlon2linecolumn :
  list (list float) -> list (list float) -> string ->
  result (list (list float) * list (list float)).

Variable interp_grid :
  string -> list Q -> list Q -> list (list float) ->
  list (list float) -> list (list float) -> result (list (list float)).

Lemma set_geo_desc_set_cache (self : FY4B_AGRI_L1) (l c : option DataArray)
    (g' g : option (list Q)) :
  (set_geo_desc latlon2linecolumn (set_cache self l c g') g).2
    = (set_geo_desc latlon2linecolumn self g).2 /\
  ((set_geo_desc latlon2linecolumn self g).2 = Ok tt ->
   (set_geo_desc latlon2linecolumn (set_cache self l c g') g).1
     = (set_geo_desc latlon2linecolumn self g).1).
Proof.
  unfold set_geo_desc. cbn [resolution set_cache].
  repeat case_match; cbn; split; try reflexivity; try discriminate.
Qed.

Lemma set_geo_desc_Ok_geo (self self' : FY4B_AGRI_L1) (gd : list Q) :
  set_geo_desc latlon2linecolumn self (Some gd) = (self', Ok tt) ->
  geo_desc self' = Some gd.
Proof.
  unfold set_geo_desc.
  repeat case_match; intros Heq; try discriminate; injection Heq as <-; reflexivity.
Qed.

(** With a grid in effect from the cache alone. *)
Lemma extract_cached (self : FY4B_AGRI_L1) (channel_name calibration : string)
    (g : option (list Q)) (m : string) :
  truthy g = false -> truthy (geo_desc self) = true ->
  extract latlon2linecolumn interp_grid self channel_name calibration g m =
  (self, dn_values ← native_dn self channel_name;
         dn_values ← resample interp_grid self m dn_values;
         calibrate self channel_name calibration dn_values).
Proof.
  intros Hg Hc. unfold extract.
  assert (E : match g with
              | Some gd =>
                  if truthy g && geo_ne gd (geo_desc self)
                  then set_geo_desc latlon2linecolumn self g else (self, Ok tt)
              | None => (self, Ok tt)
              end = (self, Ok tt)).
  { destruct g as [gd|]; [|reflexivity]. rewrite Hg. reflexivity. }
  rewrite E, Hc. reflexivity.
Qed.

(** With a grid supplied: the outcome is that of a reader with an empty
    cache. *)
Lemma extract_supplied (self : FY4B_AGRI_L1) (channel_name calibration : string)
    (gd : list Q) (m : string) :
  cache_consistent latlon2linecolumn self ->
  (forall gd', geo_desc self = Some gd' -> Forall canonical gd') ->
  Forall canonical gd ->
  truthy (Some gd) = true ->
  (extract latlon2linecolumn interp_grid self channel_name calibration (Some gd) m).2 =
  match set_geo_desc latlon2linecolumn (set_cache self None None None) (Some gd) with
  | (_, Raise e) => Raise e
  | (fresh, Ok _) =>
      dn_values ← native_dn fresh channel_name;
      dn_values ← resample interp_grid fresh m dn_values;
      calibrate fresh channel_name calibration dn_values
  end.
Proof.
  intros Hcons Hcan Hgd Htrue.
  destruct (set_geo_desc_set_cache self None None None (Some gd)) as [H2 H1].
  destruct (set_geo_desc latlon2linecolumn (set_cache self None None None) (Some gd))
    as [fresh rf] eqn:Ef.
  cbn [fst snd] in H1, H2.
  unfold extract. rewrite Htrue. cbn [andb].
  destruct (geo_ne gd (geo_desc self)) eqn:Ene.
  - destruct (set_geo_desc latlon2linecolumn self (Some gd)) as [s rs] eqn:Es.
    cbn [fst snd] in H1, H2. subst rf.
    destruct rs as [[]|e]; [|reflexivity].
    rewrite (H1 eq_refl). cbn [snd].
    rewrite (set_geo_desc_Ok_geo _ _ _ Es), Htrue. reflexivity.
  - unfold geo_ne in Ene. destruct (geo_desc self) as [gd'|] eqn:Eg; [|discriminate].
    apply list_ne_false in Ene; [|exact Hgd|apply Hcan; reflexivity]. subst gd'.
    rewrite (Hcons gd Eg) in H1, H2. cbn [fst snd] in H1, H2. subst rf.
    rewrite (H1 eq_refl). cbn [snd]. rewrite ?Eg, Htrue. reflexivity.
Qed.

(** C5, amended: [extract] resamples exactly when a grid is in effect, the
    grid supplied with the call or else the grid cached by the constructor
    or an earlier call.  With none in effect the native grid goes to
    [calibrate] as it is; with a cached grid only, the call resamples at
    the cached arrays; with a supplied grid the outcome is the one a reader
    with an empty cache gives, whatever was cached before. *)
Theorem extract_grid_in_effect (self : FY4B_AGRI_L1)
    (channel_name calibration : string) (g : option (list Q)) (m : string) :
  cache_consistent latlon2linecolumn self ->
  (forall gd, geo_desc self = Some gd -> Forall canonical gd) ->
  (forall gd, g = Some gd -> Forall canonical gd) ->
  (truthy g = false -> truthy (geo_desc self) = false ->
   extract latlon2linecolumn interp_grid self channel_name calibration g m =
   (self, dn_values ← native_dn self channel_name;
          calibrate self channel_name calibration dn_values)) /\
  (truthy g = false -> truthy (geo_desc self) = true ->
   extract latlon2linecolumn interp_grid self channel_name calibration g m =
   (self, dn_values ← native_dn self channel_name;
          dn_values ← resample interp_grid self m dn_values;
          calibrate self channel_name calibration dn_values)) /\
  (truthy g = true ->
   (extract latlon2linecolumn interp_grid self channel_name calibration g m).2 =
   match set_geo_desc latlon2linecolumn (set_cache self None None None) g with
   | (_, Raise e) => Raise e
   | (fresh, Ok _) =>
       dn_values ← native_dn fresh channel_name;
       dn_values ← resample interp_grid fresh m dn_values;
       calibrate fresh channel_name calibration dn_values
   end).
Proof.
  intros Hcons Hcan Hg. split; [|split].
  - apply extract_native.
  - apply extract_cached.
  - intros Htrue. destruct g as [gd|]; [|discriminate].
    apply extract_supplied; auto.
Qed.

(** Two readers that differ in their caches only answer alike when a grid
    is supplied. *)
Lemma extract_supplied_ignores_cache (self1 self2 : FY4B_AGRI_L1)
    (channel_name calibration : string) (gd : list Q) (m : string) :
  set_cache self1 None None None = set_cache self2 None None None ->
  cache_consistent latlon2linecolumn self1 ->
  cache_consistent latlon2linecolumn self2 ->
  (forall gd', geo_desc self1 = Some gd' -> Forall canonical gd') ->
  (forall gd', geo_desc self2 = Some gd' -> Forall canonical gd') ->
  Forall canonical gd ->
  truthy (Some gd) = true ->
  (extract latlon2linecolumn interp_grid self1 channel_name calibration (Some gd) m).2 =
  (extract latlon2linecolumn interp_grid self2 channel_name calibration (Some gd) m).2.
Proof.
  intros E H1 H2 C1 C2 Hgd Ht.
  rewrite !extract_supplied by assumption. rewrite E. reflexivity.
Qed.

(** The invariant is established by the constructor and kept by every
    call of [extract] that returns. *)
Lemma set_geo_desc_Ok_state (self self' : FY4B_AGRI_L1) (g : option (list Q)) :
  set_geo_desc latlon2linecolumn self g = (self', Ok tt) ->
  self' = set_cache self (line self') (column self') (geo_desc self').
Proof.
  unfold set_geo_desc.
  repeat case_match; intros Heq; try discriminate; injection Heq as <-; reflexivity.
Qed.

Lemma set_geo_desc_consistent (self self' : FY4B_AGRI_L1) (gd : list Q) :
  set_geo_desc latlon2linecolumn self (Some gd) = (self', Ok tt) ->
  cache_consistent latlon2linecolumn self'.
Proof.
  intros Hs gd' Hgd'.
  rewrite (set_geo_desc_Ok_geo _ _ _ Hs) in Hgd'. injection Hgd' as <-.
  destruct (set_geo_desc_set_cache self (line self') (column self') (geo_desc self')
              (Some gd)) as [H2 H1].
  rewrite <- (set_geo_desc_Ok_state _ _ _ Hs) in H1, H2.
  rewrite Hs in H1, H2. cbn [fst snd] in H1, H2. specialize (H1 eq_refl).
  destruct (set_geo_desc latlon2linecolumn self' (Some gd)) as [s r].
  cbn [fst snd] in H1, H2. subst. reflexivity.
Qed.

Lemma init_consistent (fs : gmap string HDF) (p : string) (g : option (list Q))
    (self : FY4B_AGRI_L1) :
  init latlon2linecolumn fs p g = Ok self ->
  cache_consistent latlon2linecolumn self.
Proof.
  unfold init. intros H.
  destruct (fs !! p) as [f|]; [|discriminate]. cbn in H.
  destruct (root_attrs f !! "Begin Line Number"); [|discriminate]. cbn in H.
  destruct (root_attrs f !! "End Line Number"); [|discriminate]. cbn in H.
  destruct (root_attrs f !! "Begin Pixel Number"); [|discriminate]. cbn in H.
  destruct (root_attrs f !! "End Pixel Number"); [|discriminate]. cbn in H.
  destruct g as [gd|].
  - match type of H with
    | context [set_geo_desc _ ?s (Some gd)] =>
        destruct (set_geo_desc latlon2linecolumn s (Some gd)) as [self' [[]|e]] eqn:Es
    end; [|discriminate].
    injection H as <-. apply (set_geo_desc_consistent _ _ _ Es).
  - cbn in H. injection H as <-. intros gd Hgd. discriminate.
Qed.

Lemma extract_consistent (self : FY4B_AGRI_L1) (channel_name calibration : string)
    (g : option (list Q)) (m : string) :
  cache_consistent latlon2linecolumn self ->
  is_Ok (extract latlon2linecolumn interp_grid self channel_name calibration g m).2 ->
  cache_consistent latlon2linecolumn
    (extract latlon2linecolumn interp_grid self channel_name calibration g m).1.
Proof.
  intros Hcons. unfold extract.
  destruct g as [gd|]; [|intros _; exact Hcons].
  destruct (truthy (Some gd) && geo_ne gd (geo_desc self)); [|intros _; exact Hcons].
  destruct (set_geo_desc latlon2linecolumn self (Some gd)) as [s [[]|e]] eqn:Es.
  - intros _. apply (set_geo_desc_consistent _ _ _ Es).
  - intros Hok. cbn in Hok. exfalso. exact (not_is_Ok_Raise e Hok).
Qed.

End Cache.

Lemma demo_gridded_consistent : cache_consistent Demo.project Demo.gridded_reader.
Proof. apply (init_consistent Demo.project Demo.fs Demo.path (Some Demo.grid)).
  vm_compute. reflexivity. Qed.

Lemma demo_grid_canonical : Forall canonical Demo.grid.
Proof. repeat constructor. Qed.

Lemma extract_grid_in_effect_witness :
  extract Demo.project Demo.sample Demo.gridded_reader "Channel02" "reflectance"
    None default_interp_method =
  (Demo.gridded_reader,
   dn_values ← native_dn Demo.gridded_reader "Channel02";
   dn_values ← resample Demo.sample Demo.gridded_reader default_interp_method dn_values;
   calibrate Demo.gridded_reader "Channel02" "reflectance" dn_values) /\
  (extract Demo.project Demo.sample Demo.gridded_reader "Channel02" "reflectance"
     (Some Demo.grid) default_interp_method).2 =
  (extract Demo.project Demo.sample Demo.reader "Channel02" "reflectance"
     (Some Demo.grid) default_interp_method).2.
Proof.
  assert (Hcan : forall gd, geo_desc Demo.gridded_reader = Some gd -> Forall canonical gd).
  { intros gd Hgd. vm_compute in Hgd. injection Hgd as <-. exact demo_grid_canonical. }
  split.
  - apply (extract_grid_in_effect Demo.project Demo.sample Demo.gridded_reader
             "Channel02" "reflectance" None default_interp_method).
    + exact demo_gridded_consistent.
    + exact Hcan.
    + intros gd Hgd. discriminate.
    + reflexivity.
    + reflexivity.
  - destruct (extract_grid_in_effect Demo.project Demo.sample Demo.gridded_reader
                "Channel02" "reflectance" (Some Demo.grid) default_interp_method)
      as (_ & _ & H).
    + exact demo_gridded_consistent.
    + exact Hcan.
    + intros gd Hgd. injection Hgd as <-. exact demo_grid_canonical.
    + rewrite (H eq_refl). vm_compute. reflexivity.
Defined.

(** * Further properties of [calibrate] *)

(** ** The shape of a successful call *)

(** Every call that returns went through the passthrough, the linear path
    or the lookup path; on the last two the result is the input grid mapped
    entry by entry, renamed and tagged. *)
Lemma calibrate_Ok_inv (self : FY4B_AGRI_L1) (channel_name calibration : string)
    (dn out : DataArray) :
  calibrate self channel_name calibration dn = Ok out ->
  calibration = "dn" /\ out = set_attrs {["units" := AStr "DN"]} dn \/
  calibration <> "dn" /\
  exists n fill f u,
    Py.int (Py.slice_from channel_name (-2)) = Ok n /\
    FillValue dn = Ok fill /\
    out = {| name := Some (channel_name ++ "_" ++ calibration);
             dims := dims dn; coords := coords dn;
             values := map (map f) (values dn);
             attrs := {["units" := u]} |} /\
    ((exists coef k b,
        (String.eqb calibration "reflectance" && (n <=? 6)%Z
         || String.eqb calibration "radiance" && (6 <? n)%Z) = true /\
        CALIBRATION_COEF (cal self) = Some coef /\
        Py.getitem coef (n - 1) = Ok [k; b] /\
        f = linear_cell k b fill /\ u = units_of calibration) \/
     (exists c,
        calibration = "brightness_temperature" /\ (6 < n)%Z /\
        curves (cal self) !! ("CAL" ++ channel_name) = Some c /\
        f = lookup_cell c fill /\ u = AStr "K")).
Proof.
  intros H. unfold calibrate in H.
  destruct (String.eqb_spec calibration "dn") as [->|Hdn].
  { left. injection H as <-. split; reflexivity. }
  right. split; [exact Hdn|].
  destruct (Py.int (Py.slice_from channel_name (-2))) as [n|] eqn:En; [|discriminate].
  cbn [mbind result_bind] in H.
  destruct (FillValue dn) as [fill|] eqn:Ef; [|discriminate].
  cbn [mbind result_bind] in H.
  exists n, fill.
  destruct (String.eqb calibration "reflectance" && (n <=? 6)%Z
            || String.eqb calibration "radiance" && (6 <? n)%Z) eqn:Elin.
  - destruct (CALIBRATION_COEF (cal self)) as [coef|] eqn:Ec; [|discriminate].
    cbn [of_option mbind result_bind] in H.
    destruct (Py.getitem coef (n - 1)) as [row|] eqn:Er; [|discriminate].
    cbn [mbind result_bind] in H.
    destruct row as [|k [|b [|? ?]]]; try discriminate.
    cbn [unpack2 mbind result_bind] in H.
    rewrite FillValue_fillna, Ef in H. cbn [mbind result_bind fst snd] in H.
    injection H as <-.
    exists (linear_cell k b fill), (units_of calibration).
    split; [reflexivity|]. split; [reflexivity|]. split.
    + unfold set_name, set_attrs, scale_offset, where_ne, fillna, map_values; cbn.
      rewrite !map_map. f_equal.
      apply map_ext. intros row. rewrite !map_map. reflexivity.
    + left. exists coef, k, b. repeat split; try reflexivity; assumption.
  - destruct (String.eqb_spec calibration "brightness_temperature") as [->|Hbt];
      [|discriminate].
    destruct (6 <? n)%Z eqn:Egt; [|discriminate]. cbn [andb] in H.
    destruct (curves (cal self) !! ("CAL" ++ channel_name)) as [c|] eqn:Ec;
      [|discriminate].
    cbn [of_option mbind result_bind] in H.
    rewrite interp_eq in H. cbn [mbind result_bind] in H. injection H as <-.
    exists (lookup_cell c fill), (AStr "K").
    split; [reflexivity|]. split; [reflexivity|]. split.
    + unfold set_name, set_attrs, fillna, map_values, lookup_cell; cbn.
      rewrite map_map. f_equal.
      apply map_ext. intros row. rewrite map_map. reflexivity.
    + right. exists c. apply Z.ltb_lt in Egt. repeat split; try reflexivity; assumption.
Qed.

Lemma cell_mapped (nm : option string) (ds : list string)
    (cs : gmap string (list Q)) (ats : gmap string attr)
    (f : float -> float) (dn : DataArray) (i j : nat) :
  cell {| name := nm; dims := ds; coords := cs;
          values := map (map f) (values dn); attrs := ats |} i j
  = f <$> cell dn i j.
Proof. unfold cell; cbn. apply lookup_map2. Qed.

(** X1: the result has the dimensions, the coordinates and the index set of
    the grid it was computed from, whatever the quantity. *)
Theorem calibrate_keeps_grid (self : FY4B_AGRI_L1) (channel_name calibration : string)
    (dn out : DataArray) :
  calibrate self channel_name calibration dn = Ok out ->
  dims out = dims dn /\ coords out = coords dn /\
  length (values out) = length (values dn) /\
  forall i j, is_Some (cell out i j) <-> is_Some (cell dn i j).
Proof.
  intros H. apply calibrate_Ok_inv in H as [[_ ->]|(_ & n & fill & f & u & _ & _ & -> & _)].
  - repeat split; intros Hs; exact Hs.
  - cbn. rewrite length_map. repeat split; rewrite cell_mapped;
      rewrite fmap_is_Some; intros Hs; exact Hs.
Qed.

Lemma calibrate_keeps_grid_witness :
  exists out,
    calibrate Demo.reader "Channel07" "brightness_temperature" Demo.nom07 = Ok out /\
    dims out = dims Demo.nom07 /\ coords out = coords Demo.nom07 /\
    length (values out) = length (values Demo.nom07) /\
    forall i j, is_Some (cell out i j) <-> is_Some (cell Demo.nom07 i j).
Proof.
  eexists. split; [vm_compute; reflexivity|].
  apply (calibrate_keeps_grid Demo.reader "Channel07" "brightness_temperature").
  vm_compute. reflexivity.
Defined.

(** ** Name and attributes of the result *)

(** X2: every quantity other than "dn" names the result after channel and
    quantity and tags it with the unit of the quantity. *)
Theorem calibrate_name_and_units (self : FY4B_AGRI_L1)
    (channel_name calibration : string) (dn out : DataArray) :
  calibrate self channel_name calibration dn = Ok out ->
  calibration <> "dn" ->
  name out = Some (channel_name ++ "_" ++ calibration) /\
  (calibration = "reflectance" /\ attrs out !! "units" = Some (AStr "100%") \/
   calibration = "radiance" /\ attrs out !! "units" = Some (AStr "mW/ (m2 cm-1 sr)") \/
   calibration = "brightness_temperature" /\ attrs out !! "units" = Some (AStr "K")).
Proof.
  intros H Hdn.
  apply calibrate_Ok_inv in H as [[E _]|(_ & n & fill & f & u & _ & _ & -> & Hpath)];
    [contradiction|].
  split; [reflexivity|]. cbn.
  destruct Hpath as [(coef & k & b & Hsel & _ & _ & _ & ->)|(c & -> & _ & _ & _ & ->)].
  - apply orb_true_iff in Hsel as [Hsel|Hsel];
      apply andb_true_iff in Hsel as [Hsel _]; apply String.eqb_eq in Hsel as ->.
    + left. split; reflexivity.
    + right. left. split; reflexivity.
  - right. right. split; reflexivity.
Qed.

Lemma calibrate_name_and_units_witness :
  exists out,
    calibrate Demo.reader "Channel07" "radiance" Demo.nom07 = Ok out /\
    name out = Some "Channel07_radiance" /\
    attrs out !! "units" = Some (AStr "mW/ (m2 cm-1 sr)").
Proof.
  eexists. split; [vm_compute; reflexivity|].
  destruct (calibrate_name_and_units Demo.reader "Channel07" "radiance" Demo.nom07 _
              ltac:(vm_compute; reflexivity) ltac:(discriminate))
    as [Hname [[E _]|[[_ Hu]|[E _]]]]; try discriminate.
  split; [exact Hname|exact Hu].
Defined.

(** X3: the passthrough and the lookup path replace the attribute dictionary
    by the unit tag alone, so their result has no [FillValue] and a further
    conversion of it raises [AttributeError]: the result of the passthrough
    cannot be converted afterwards. *)
Theorem calibrate_result_not_convertible (self self' : FY4B_AGRI_L1)
    (channel_name calibration channel_name' calibration' : string)
    (n' : Z) (dn out : DataArray) :
  calibration = "dn" \/ calibration = "brightness_temperature" ->
  calibrate self channel_name calibration dn = Ok out ->
  calibration' <> "dn" ->
  Py.int (Py.slice_from channel_name' (-2)) = Ok n' ->
  calibrate self' channel_name' calibration' out = Raise (AttributeError "FillValue").
Proof.
  intros Hq H Hdn Hn.
  assert (Hf : FillValue out = Raise (AttributeError "FillValue")).
  { apply calibrate_Ok_inv in H as [[_ ->]|(_ & n & fill & f & u & _ & _ & -> & Hpath)];
      [reflexivity|].
    destruct Hpath as [(coef & k & b & Hsel & _)|(c & _ & _ & _ & _ & ->)];
      [|reflexivity].
    destruct Hq as [->| ->]; discriminate. }
  unfold calibrate. apply String.eqb_neq in Hdn. rewrite Hdn, Hn.
  cbn [mbind result_bind]. rewrite Hf. reflexivity.
Qed.

Lemma calibrate_result_not_convertible_witness :
  exists out,
    calibrate Demo.reader "Channel02" "dn" Demo.nom02 = Ok out /\
    calibrate Demo.reader "Channel02" "reflectance" out = Raise (AttributeError "FillValue").
Proof.
  eexists. split; [reflexivity|].
  apply (calibrate_result_not_convertible Demo.reader Demo.reader "Channel02" "dn"
           "Channel02" "reflectance" 2 Demo.nom02);
    [left; reflexivity|reflexivity|discriminate|reflexivity].
Defined.

(** ** NaN entries *)

(** X4: on the linear and the lookup path a NaN entry of the input is converted
    like a fill entry: the two come out alike. *)
Theorem calibrate_nan_as_fill (self : FY4B_AGRI_L1)
    (channel_name calibration : string) (fill : Q) (dn out : DataArray)
    (i j i' j' : nat) :
  calibrate self channel_name calibration dn = Ok out ->
  calibration <> "dn" ->
  FillValue dn = Ok fill ->
  cell dn i j = Some NaN ->
  cell dn i' j' = Some (Fin fill) ->
  cell out i j = cell out i' j'.
Proof.
  intros H Hdn Hfill Hnan Hfin.
  apply calibrate_Ok_inv in H as [[E _]|(_ & n & fill' & f & u & _ & Hfill' & -> & Hpath)];
    [contradiction|].
  rewrite Hfill in Hfill'. injection Hfill' as <-.
  rewrite !cell_mapped, Hnan, Hfin. cbn.
  destruct Hpath as [(coef & k & b & _ & _ & _ & -> & _)|(c & _ & _ & _ & -> & _)];
    reflexivity.
Qed.

Lemma calibrate_nan_as_fill_witness :
  exists out,
    calibrate Demo.reader "Channel07" "brightness_temperature" Edge.nan_grid = Ok out /\
    cell out 0 0 = cell out 0 1.
Proof.
  eexists. split; [vm_compute; reflexivity|].
  apply (calibrate_nan_as_fill Demo.reader "Channel07" "brightness_temperature"
           Demo.fill Edge.nan_grid);
    [vm_compute; reflexivity|discriminate|reflexivity|reflexivity|reflexivity].
Defined.

(** ** The linear path *)

Lemma getitem_negative {A} (l : list A) (i : Z) (x : A) :
  (i < 0)%Z -> (0 <= i + Z.of_nat (length l))%Z ->
  l !! Z.to_nat (i + Z.of_nat (length l)) = Some x -> Py.getitem l i = Ok x.
Proof.
  intros Hi Hj Hx. unfold Py.getitem.
  rewrite (proj2 (Z.ltb_lt i 0) Hi).
  destruct (i + Z.of_nat (length l) <? 0)%Z eqn:E; [apply Z.ltb_lt in E; lia|].
  rewrite Hx. reflexivity.
Qed.

Lemma getitem_beyond {A} (l : list A) (i : Z) :
  (Z.of_nat (length l) <= i)%Z -> Py.getitem l i = Raise (IndexError "index out of bounds").
Proof.
  intros Hi. unfold Py.getitem.
  destruct (i <? 0)%Z eqn:E; [apply Z.ltb_lt in E; lia|]. rewrite E.
  rewrite (proj2 (lookup_ge_None l (Z.to_nat i))) by lia. reflexivity.
Qed.

(** X5: on the linear path, for reflectance as for radiance, a valid entry [d]
    comes out as [k * d + b] and a fill entry or a NaN as NaN, with [[k, b]]
    the row [n - 1] of the coefficient array. *)
Theorem calibrate_linear_masks_fill (self : FY4B_AGRI_L1)
    (channel_name calibration : string) (n : Z) (fill : Q)
    (coef : list (list float)) (k b : float) (dn : DataArray) :
  calibration = "reflectance" /\ (1 <= n <= 6)%Z \/ calibration = "radiance" /\ (6 < n)%Z ->
  Py.int (Py.slice_from channel_name (-2)) = Ok n ->
  FillValue dn = Ok fill ->
  CALIBRATION_COEF (cal self) = Some coef ->
  coef !! Z.to_nat (n - 1) = Some [k; b] ->
  exists out,
    calibrate self channel_name calibration dn = Ok out /\
    (forall i j d, cell dn i j = Some (Fin d) -> ~ (d == fill)%Q ->
       cell out i j = Some (fadd (fmul k (Fin d)) b)) /\
    (forall i j d, cell dn i j = Some (Fin d) -> (d == fill)%Q ->
       cell out i j = Some NaN) /\
    (forall i j, cell dn i j = Some NaN -> cell out i j = Some NaN).
Proof.
  intros Hsel Hn Hfill Hcoef Hrow.
  eexists. split.
  - apply (calibrate_linear_path self channel_name calibration n fill coef k b);
      try assumption.
    + destruct Hsel as [[-> H]|[-> H]]; [left|right]; split; try reflexivity; lia.
    + apply getitem_nonneg; [destruct Hsel as [[_ H]|[_ H]]; lia|exact Hrow].
  - split; [|split]; intros i j; intros; rewrite cell_mapped.
    + rewrite H. cbn. rewrite linear_cell_valid; done.
    + rewrite H. cbn. rewrite linear_cell_fill; done.
    + rewrite H. cbn. rewrite linear_cell_nan. reflexivity.
Qed.

Lemma calibrate_linear_masks_fill_witness :
  exists out,
    calibrate Demo.reader "Channel07" "radiance" Edge.nan_grid = Ok out /\
    cell out 0 0 = Some NaN /\ cell out 0 1 = Some NaN /\
    cell out 0 2 = Some (fadd (fmul (Fin (inject_Z 7 / 10)) (Fin 7)) (Fin (inject_Z 7))).
Proof.
  destruct (calibrate_linear_masks_fill Demo.reader "Channel07" "radiance" 7 Demo.fill
              Demo.coef (Fin (inject_Z 7 / 10)) (Fin (inject_Z 7)) Edge.nan_grid)
    as (out & Hout & Hvalid & Hfill & Hnan);
    [right; split; [reflexivity|lia]|reflexivity|reflexivity|reflexivity|reflexivity|].
  exists out. split; [exact Hout|]. split; [|split].
  - apply Hnan. reflexivity.
  - apply (Hfill 0 1 255%Q)%nat; reflexivity.
  - apply (Hvalid 0 2 7%Q)%nat; [reflexivity|]. intros E. vm_compute in E. discriminate.
Defined.

(** X6: a channel name that ends in an ordinal of zero or below is not
    rejected: the coefficient row is counted from the end of the array, so
    "Channel00" is converted to reflectance with the last row. *)
Theorem calibrate_ordinal_from_end (self : FY4B_AGRI_L1) (channel_name : string)
    (n : Z) (fill : Q) (coef : list (list float)) (k b : float) (dn : DataArray) :
  Py.int (Py.slice_from channel_name (-2)) = Ok n ->
  (n <= 0)%Z ->
  FillValue dn = Ok fill ->
  CALIBRATION_COEF (cal self) = Some coef ->
  (0 <= n - 1 + Z.of_nat (length coef))%Z ->
  coef !! Z.to_nat (n - 1 + Z.of_nat (length coef)) = Some [k; b] ->
  exists out,
    calibrate self channel_name "reflectance" dn = Ok out /\
    forall i j, cell out i j = linear_cell k b fill <$> cell dn i j.
Proof.
  intros Hn Hle Hfill Hcoef Hidx Hrow.
  eexists. split.
  - apply (calibrate_linear_path self channel_name "reflectance" n fill coef k b);
      try assumption.
    + left. split; [reflexivity|lia].
    + apply getitem_negative; [lia|exact Hidx|exact Hrow].
  - intros i j. apply cell_mapped.
Qed.

Lemma calibrate_ordinal_from_end_witness :
  exists out,
    calibrate Demo.reader "Channel00" "reflectance" Demo.nom02 = Ok out /\
    Demo.coef !! 13%nat = Some [Fin (inject_Z 14 / 10); Fin (inject_Z 14)] /\
    forall i j, cell out i j =
                linear_cell (Fin (inject_Z 14 / 10)) (Fin (inject_Z 14)) Demo.fill
                  <$> cell Demo.nom02 i j.
Proof.
  destruct (calibrate_ordinal_from_end Demo.reader "Channel00" 0 Demo.fill Demo.coef
              (Fin (inject_Z 14 / 10)) (Fin (inject_Z 14)) Demo.nom02)
    as (out & Hout & Hcell);
    [reflexivity|lia|reflexivity|reflexivity|vm_compute; discriminate|reflexivity|].
  exists out. split; [exact Hout|]. split; [reflexivity|exact Hcell].
Defined.

(** ** Errors *)

(** X7: the order of the checks: for every quantity other than "dn" the
    channel name is parsed first and the fill value read second, before the
    pair of channel and quantity is looked at.  A name that does not end in
    a number raises the error of [int], and a grid without [FillValue]
    raises [AttributeError], also on a pair that has no calibration. *)
Theorem calibrate_input_errors (self : FY4B_AGRI_L1)
    (channel_name calibration : string) (dn : DataArray) :
  calibration <> "dn" ->
  (forall e, Py.int (Py.slice_from channel_name (-2)) = Raise e ->
             calibrate self channel_name calibration dn = Raise e) /\
  (forall n, Py.int (Py.slice_from channel_name (-2)) = Ok n ->
             attrs dn !! "FillValue" = None ->
             calibrate self channel_name calibration dn = Raise (AttributeError "FillValue")).
Proof.
  intros Hdn. apply String.eqb_neq in Hdn. split.
  - intros e He. unfold calibrate. rewrite Hdn, He. reflexivity.
  - intros n Hn Hf. unfold calibrate. rewrite Hdn, Hn. cbn [mbind result_bind].
    unfold FillValue. rewrite Hf. reflexivity.
Qed.

Lemma calibrate_input_errors_witness :
  calibrate Demo.reader "NOMChannel" "reflectance" Demo.nom02 =
    Raise (ValueError "invalid literal for int() with base 10: 'el'") /\
  calibrate Demo.reader "Channel07" "reflectance" Edge.bare_grid =
    Raise (AttributeError "FillValue").
Proof.
  split.
  - apply (calibrate_input_errors Demo.reader "NOMChannel" "reflectance" Demo.nom02);
      [discriminate|reflexivity].
  - apply (calibrate_input_errors Demo.reader "Channel07" "reflectance" Edge.bare_grid
             ltac:(discriminate)) with (n := 7%Z); reflexivity.
Defined.

(** X8: missing calibration data: without the coefficient array the linear
    path raises [KeyError]; with an array of fewer rows than the channel
    ordinal it raises [IndexError], as for channel 2 of a product whose
    array has the one row of that channel; without the channel's curve the
    lookup path raises [KeyError] for the variable [CAL<channel>]. *)
Theorem calibrate_missing_tables (self : FY4B_AGRI_L1)
    (channel_name calibration : string) (n : Z) (fill : Q) (dn : DataArray) :
  Py.int (Py.slice_from channel_name (-2)) = Ok n ->
  FillValue dn = Ok fill ->
  (calibration = "reflectance" /\ (n <= 6)%Z \/ calibration = "radiance" /\ (6 < n)%Z ->
   (CALIBRATION_COEF (cal self) = None ->
    calibrate self channel_name calibration dn =
    Raise (KeyError "CALIBRATION_COEF(SCALE+OFFSET)")) /\
   (forall coef, CALIBRATION_COEF (cal self) = Some coef ->
                 (Z.of_nat (length coef) < n)%Z ->
                 exists msg, calibrate self channel_name calibration dn =
                             Raise (IndexError msg))) /\
  ((6 < n)%Z -> curves (cal self) !! ("CAL" ++ channel_name) = None ->
   calibrate self channel_name "brightness_temperature" dn =
   Raise (KeyError ("CAL" ++ channel_name))).
Proof.
  intros Hn Hfill. split.
  - intros Hsel.
    assert (Hdn : String.eqb calibration "dn" = false)
      by (destruct Hsel as [[-> _]|[-> _]]; reflexivity).
    assert (Hb : String.eqb calibration "reflectance" && (n <=? 6)%Z
                 || String.eqb calibration "radiance" && (6 <? n)%Z = true).
    { destruct Hsel as [[-> H]|[-> H]]; cbn.
      - apply Z.leb_le in H. rewrite H. reflexivity.
      - apply Z.ltb_lt in H. rewrite H. reflexivity. }
    split.
    + intros Hc. unfold calibrate. rewrite Hdn, Hn. cbn [mbind result_bind].
      rewrite Hfill. cbn [mbind result_bind]. rewrite Hb, Hc. reflexivity.
    + intros coef Hc Hlen. eexists. unfold calibrate.
      rewrite Hdn, Hn. cbn [mbind result_bind].
      rewrite Hfill. cbn [mbind result_bind]. rewrite Hb, Hc.
      cbn [of_option mbind result_bind].
      rewrite getitem_beyond by lia. reflexivity.
  - intros Hgt Hc. unfold calibrate.
    change (String.eqb "brightness_temperature" "dn") with false. cbv iota.
    rewrite Hn. cbn [mbind result_bind]. rewrite Hfill. cbn [mbind result_bind].
    change (String.eqb "brightness_temperature" "reflectance") with false.
    change (String.eqb "brightness_temperature" "radiance") with false.
    change (String.eqb "brightness_temperature" "brightness_temperature") with true.
    apply Z.ltb_lt in Hgt. rewrite Hgt. cbn [andb orb]. rewrite Hc. reflexivity.
Qed.

Lemma calibrate_missing_tables_witness :
  (exists msg, calibrate Edge.single_channel "Channel02" "reflectance" Demo.nom02 =
               Raise (IndexError msg)) /\
  calibrate Edge.single_channel "Channel07" "brightness_temperature" Demo.nom07 =
    Raise (KeyError "CALChannel07").
Proof.
  split.
  - destruct (calibrate_missing_tables Edge.single_channel "Channel02" "reflectance" 2
                Demo.fill Demo.nom02 eq_refl eq_refl) as [H _].
    destruct (H ltac:(left; split; [reflexivity|lia])) as [_ H'].
    apply (H' [[Fin (1 # 10); Fin 0]]); [reflexivity|cbn; lia].
  - apply (calibrate_missing_tables Edge.single_channel "Channel07"
             "brightness_temperature" 7 Demo.fill Demo.nom07 eq_refl eq_refl);
      [lia|reflexivity].
Defined.

(** ** The lookup path off and on the curve *)













(** * Further properties of the reader *)

(** ** Rejected grids *)

Section Grids.

Variable latlon2linecolumn :
  list (list float) -> list (list float) -> string ->
  result (list (list float) * list (list float)).

Variable interp_grid :
  string -> list Q -> list Q -> list (list float) ->
  list (list float) -> list (list float) -> result (list (list float)).

(** What a successful [set_geo_desc] has computed. *)
Lemma set_geo_desc_Ok_inv (self self' : FY4B_AGRI_L1) (gd : list Q) :
  set_geo_desc latlon2linecolumn self (Some gd) = (self', Ok tt) ->
  exists lat_S lat_N lon_W lon_E step lat lon l c,
    gd = [lat_S; lat_N; lon_W; lon_E; step] /\
    lat_axis (Double.mul 1000 (Double.round lat_S)) (Double.mul 1000 (Double.round lat_N)) (Double.mul 1000 (Double.round step)) = Ok lat /\
    lon_axis (Double.mul 1000 (Double.round lon_W)) (Double.mul 1000 (Double.round lon_E)) (Double.mul 1000 (Double.round step)) = Ok lon /\
    latlon2linecolumn (Np.meshgrid lon lat).2 (Np.meshgrid lon lat).1 (resolution self)
      = Ok (l, c) /\
    Np.has_shape l (length lat) (length lon) = true /\
    Np.has_shape c (length lat) (length lon) = true /\
    self' = set_cache self
              (Some {| name := Some "line"; dims := ["lat"; "lon"];
                       coords := <["lon" := lon]> (<["lat" := lat]> ∅);
                       values := l; attrs := ∅ |})
              (Some {| name := Some "column"; dims := ["lat"; "lon"];
                       coords := <["lon" := lon]> (<["lat" := lat]> ∅);
                       values := c; attrs := ∅ |})
              (Some gd).
Proof.
  unfold set_geo_desc.
  destruct gd as [|lat_S [|lat_N [|lon_W [|lon_E [|step [|? ?]]]]]];
    cbn [scaled map]; try discriminate.
  destruct (lat_axis (Double.mul 1000 (Double.round lat_S)) (Double.mul 1000 (Double.round lat_N)) (Double.mul 1000 (Double.round step))) as [lat|] eqn:Elat;
    cbn [mbind result_bind]; [|discriminate].
  destruct (lon_axis (Double.mul 1000 (Double.round lon_W)) (Double.mul 1000 (Double.round lon_E)) (Double.mul 1000 (Double.round step))) as [lon|] eqn:Elon;
    cbn [mbind result_bind]; [|discriminate].
  unfold Np.meshgrid at 1. cbn [fst snd].
  change (map (fun _ => map Fin lon) lat) with (Np.meshgrid lon lat).1.
  change (map (fun b => map (fun _ => Fin b) lon) lat) with (Np.meshgrid lon lat).2.
  destruct (latlon2linecolumn _ _ _) as [[l c]|] eqn:Ep;
    cbn [mbind result_bind]; [|discriminate].
  unfold Xr.new.
  destruct (Np.has_shape l (length lat) (length lon)) eqn:Hl; [|discriminate].
  destruct (Np.has_shape c (length lat) (length lon)) eqn:Hc; [|discriminate].
  intros H. injection H as <-.
  exists lat_S, lat_N, lon_W, lon_E, step, lat, lon, l, c. repeat split; assumption.
Qed.

(** X11: a grid that is rejected before the arrays are built leaves the reader
    as it was: a list that has not five entries, a zero step, a projection
    that raises. *)
Theorem set_geo_desc_rejected (self : FY4B_AGRI_L1) (gd : list Q) :
  (length gd <> 5%nat ->
   exists msg, set_geo_desc latlon2linecolumn self (Some gd)
               = (self, Raise (ValueError msg))) /\
  (forall lat_S lat_N lon_W lon_E step,
     gd = [lat_S; lat_N; lon_W; lon_E; step] -> (step == 0)%Q ->
     exists e, set_geo_desc latlon2linecolumn self (Some gd) = (self, Raise e)) /\
  (forall lat_S lat_N lon_W lon_E step e,
     gd = [lat_S; lat_N; lon_W; lon_E; step] -> ~ (step == 0)%Q ->
     (forall la lo, latlon2linecolumn la lo (resolution self) = Raise e) ->
     set_geo_desc latlon2linecolumn self (Some gd) = (self, Raise e)).
Proof.
  split; [|split].
  - intros Hlen. eexists. unfold set_geo_desc.
    destruct gd as [|a [|b [|c [|d [|s [|? ?]]]]]]; cbn in Hlen |- *;
      try reflexivity; lia.
  - intros lat_S lat_N lon_W lon_E step -> Hz. unfold set_geo_desc. cbn [scaled map].
    rewrite (scaled_zero step Hz). unfold lat_axis, Np.arange.
    change (Qeq_bool (- 0) 0) with true. cbn [mbind result_bind].
    eexists. reflexivity.
  - intros lat_S lat_N lon_W lon_E step e -> Hnz Hp. unfold set_geo_desc.
    cbn [scaled map]. pose proof (scaled_nonzero step Hnz) as Hs.
    unfold lat_axis, lon_axis.
    destruct (arange_Ok (Double.mul 1000 (Double.round lat_N))
                (Double.sub (Double.mul 1000 (Double.round lat_S)) 1)
                (- Double.mul 1000 (Double.round step))) as [a ->].
    { intros E. apply Hs. rewrite <- (Qopp_involutive (Double.mul _ _)), E. reflexivity. }
    destruct (arange_Ok (Double.mul 1000 (Double.round lon_W))
                (Double.add (Double.mul 1000 (Double.round lon_E)) 1)
                (Double.mul 1000 (Double.round step)) Hs) as [b ->].
    cbn [mbind result_bind]. unfold Np.meshgrid. rewrite Hp. reflexivity.
Qed.

End Grids.

Lemma set_geo_desc_rejected_witness :
  (exists msg, set_geo_desc Demo.project Demo.gridded_reader (Some [59; 60; 1 # 2]%Q)
               = (Demo.gridded_reader, Raise (ValueError msg))) /\
  (exists e, set_geo_desc Demo.project Demo.gridded_reader (Some [59; 60; 70; 72; 0]%Q)
             = (Demo.gridded_reader, Raise e)) /\
  set_geo_desc Edge.failing_project Demo.gridded_reader (Some [59; 60; 70; 72; 1]%Q)
    = (Demo.gridded_reader, Raise (KeyError "4000M")).
Proof.
  destruct (set_geo_desc_rejected Demo.project Demo.gridded_reader [59; 60; 1 # 2]%Q)
    as (H1 & _ & _).
  destruct (set_geo_desc_rejected Demo.project Demo.gridded_reader [59; 60; 70; 72; 0]%Q)
    as (_ & H2 & _).
  destruct (set_geo_desc_rejected Edge.failing_project Demo.gridded_reader
              [59; 60; 70; 72; 1]%Q) as (_ & _ & H3).
  split; [|split].
  - apply H1. cbn. lia.
  - apply (H2 59 60 70 72 0)%Q; reflexivity.
  - apply (H3 59 60 70 72 1 (KeyError "4000M"))%Q; [reflexivity|discriminate|].
    intros la lo. reflexivity.
Defined.

(** ** The argument [geo_desc] of [extract] *)

Section Extract.

Variable latlon2linecolumn :
  list (list float) -> list (list float) -> string ->
  result (list (list float) * list (list float)).

Variable interp_grid :
  string -> list Q -> list Q -> list (list float) ->
  list (list float) -> list (list float) -> result (list (list float)).

(** The steps of [extract] after the cache has been brought up to date. *)
Lemma extract_unfold (self : FY4B_AGRI_L1) (channel_name calibration : string)
    (g : option (list Q)) (m : string) :
  extract latlon2linecolumn interp_grid self channel_name calibration g m =
  let sr := match g with
            | Some gd =>
                if truthy g && geo_ne gd (geo_desc self)
                then set_geo_desc latlon2linecolumn self g else (self, Ok tt)
            | None => (self, Ok tt)
            end in
  match sr.2 with
  | Raise e => (sr.1, Raise e)
  | Ok _ =>
      (sr.1,
       dn_values ← native_dn sr.1 channel_name;
       dn_values ← (if truthy (geo_desc sr.1)
                     then resample interp_grid sr.1 m dn_values else Ok dn_values);
       calibrate sr.1 channel_name calibration dn_values)
  end.
Proof.
  unfold extract.
  destruct (match g with
            | Some gd =>
                if truthy g && geo_ne gd (geo_desc self)
                then set_geo_desc latlon2linecolumn self g else (self, Ok tt)
            | None => (self, Ok tt)
            end) as [s [u|e]]; reflexivity.
Qed.

(** X12: an empty list is no grid for [extract], which then behaves as with
    [None]; the constructor tests for [None] only and fails on it. *)
Theorem empty_grid_argument (self : FY4B_AGRI_L1) (channel_name calibration : string)
    (m : string) (fs : gmap string HDF) (p : string) (f : HDF) (lb le cb ce : Z) :
  fs !! p = Some f ->
  root_attrs f !! "Begin Line Number" = Some lb ->
  root_attrs f !! "End Line Number" = Some le ->
  root_attrs f !! "Begin Pixel Number" = Some cb ->
  root_attrs f !! "End Pixel Number" = Some ce ->
  extract latlon2linecolumn interp_grid self channel_name calibration (Some []) m =
  extract latlon2linecolumn interp_grid self channel_name calibration None m /\
  exists msg, init latlon2linecolumn fs p (Some []) = Raise (ValueError msg).
Proof.
  intros Hf Hlb Hle Hcb Hce. split; [reflexivity|].
  unfold init. rewrite Hf. cbn. rewrite Hlb. cbn. rewrite Hle. cbn.
  rewrite Hcb. cbn. rewrite Hce. cbn. eexists. reflexivity.
Qed.

(** X13: after [set_geo_desc(None)] a call without a grid converts the native
    grid, whatever was cached before. *)
Theorem extract_after_clearing (self : FY4B_AGRI_L1)
    (channel_name calibration : string) (m : string) :
  let cleared := (set_geo_desc latlon2linecolumn self None).1 in
  (set_geo_desc latlon2linecolumn self None).2 = Ok tt /\
  extract latlon2linecolumn interp_grid cleared channel_name calibration None m =
  (cleared, dn_values ← native_dn self channel_name;
            calibrate self channel_name calibration dn_values).
Proof.
  cbn zeta. split; [reflexivity|].
  rewrite extract_native by reflexivity. reflexivity.
Qed.

(** X14: [extract] writes the cache and nothing else: the data, the
    calibration group, the resolution and the window are left alone, and
    without a grid in the call the whole reader is. *)
Theorem extract_frame (self : FY4B_AGRI_L1) (channel_name calibration : string)
    (g : option (list Q)) (m : string) :
  let self' := (extract latlon2linecolumn interp_grid self channel_name
                  calibration g m).1 in
  ds self' = ds self /\ cal self' = cal self /\
  resolution self' = resolution self /\
  line_begin self' = line_begin self /\ line_end self' = line_end self /\
  column_begin self' = column_begin self /\ column_end self' = column_end self /\
  (truthy g = false -> self' = self).
Proof.
  cbn zeta. rewrite extract_unfold. cbn zeta.
  assert (Hfst : forall (s : FY4B_AGRI_L1) (r : result unit) (k : result DataArray),
            (match r with Raise e => (s, Raise e) | Ok _ => (s, k) end).1 = s)
    by (intros s [u|e] k; reflexivity).
  rewrite Hfst.
  destruct g as [gd|].
  - destruct (truthy (Some gd)) eqn:Et; cbn [andb].
    + destruct (geo_ne gd (geo_desc self)).
      * pose proof (set_geo_desc_frame latlon2linecolumn self (Some gd)) as H.
        cbn zeta in H. destruct H as (H1 & H2 & H3 & H4 & H5 & H6 & H7).
        repeat split; try assumption. discriminate.
      * repeat split.
    + repeat split.
  - repeat split.
Qed.

(** X15: a channel the product does not hold raises [KeyError] for the variable
    [NOM<channel>].  The grid of the call has been set by then: without one
    the reader is unchanged, with a new one it holds the new cache although
    the call failed. *)
Theorem extract_missing_channel (self : FY4B_AGRI_L1)
    (channel_name calibration : string) (g : option (list Q)) (m : string) :
  ds self !! ("NOM" ++ channel_name) = None ->
  (truthy g = false ->
   extract latlon2linecolumn interp_grid self channel_name calibration g m =
   (self, Raise (KeyError ("NOM" ++ channel_name)))) /\
  (forall gd self',
     g = Some gd -> truthy g = true -> geo_ne gd (geo_desc self) = true ->
     set_geo_desc latlon2linecolumn self g = (self', Ok tt) ->
     extract latlon2linecolumn interp_grid self channel_name calibration g m =
     (self', Raise (KeyError ("NOM" ++ channel_name))) /\
     geo_desc self' = g).
Proof.
  intros Hno. split.
  - intros Hg. rewrite extract_unfold.
    assert (E : match g with
                | Some gd =>
                    if truthy g && geo_ne gd (geo_desc self)
                    then set_geo_desc latlon2linecolumn self g else (self, Ok tt)
                | None => (self, Ok tt)
                end = (self, Ok tt)).
    { destruct g as [gd|]; [|reflexivity]. rewrite Hg. reflexivity. }
    rewrite E. cbn. unfold native_dn. rewrite Hno. reflexivity.
  - intros gd self' -> Ht Hne Hs. rewrite extract_unfold, Ht, Hne, Hs. cbn.
    pose proof (set_geo_desc_frame latlon2linecolumn self (Some gd)) as H.
    rewrite Hs in H. cbn in H. destruct H as (Hds & _).
    unfold native_dn. rewrite Hds, Hno. cbn. split; [reflexivity|].
    apply (set_geo_desc_Ok_geo latlon2linecolumn _ _ _ Hs).
Qed.

End Extract.

Lemma empty_grid_argument_witness :
  extract Demo.project Demo.sample Demo.gridded_reader "Channel02" "reflectance"
    (Some []) default_interp_method =
  extract Demo.project Demo.sample Demo.gridded_reader "Channel02" "reflectance"
    None default_interp_method /\
  exists msg, init Demo.project Demo.fs Demo.path (Some []) = Raise (ValueError msg).
Proof.
  apply (empty_grid_argument Demo.project Demo.sample Demo.gridded_reader "Channel02"
           "reflectance" default_interp_method Demo.fs Demo.path Demo.file 0 1 0 2);
    reflexivity.
Defined.

Lemma extract_missing_channel_witness :
  extract Demo.project Demo.sample Demo.reader "Channel05" "reflectance" None
    default_interp_method = (Demo.reader, Raise (KeyError "NOMChannel05")) /\
  extract Demo.project Demo.sample Demo.reader "Channel05" "reflectance"
    (Some Demo.grid) default_interp_method
    = (Demo.gridded_reader, Raise (KeyError "NOMChannel05")) /\
  geo_desc Demo.gridded_reader = Some Demo.grid.
Proof.
  destruct (extract_missing_channel Demo.project Demo.sample Demo.reader "Channel05"
              "reflectance" None default_interp_method) as [H1 _]; [reflexivity|].
  destruct (extract_missing_channel Demo.project Demo.sample Demo.reader "Channel05"
              "reflectance" (Some Demo.grid) default_interp_method) as [_ H2];
    [reflexivity|].
  split; [apply H1; reflexivity|].
  apply (H2 Demo.grid Demo.gridded_reader);
    [reflexivity|reflexivity|reflexivity|vm_compute; reflexivity].
Defined.

(** ** The cache *)

Lemma list_ne_refl (a : list Q) : list_ne a a = false.
Proof.
  induction a as [|x a IH]; [reflexivity|].
  cbn. rewrite IH, (proj2 (Qeq_bool_iff x x) (Qeq_refl x)). reflexivity.
Qed.

Section Cached.

Variable latlon2linecolumn :
  list (list float) -> list (list float) -> string ->
  result (list (list float) * list (list float)).

Variable interp_grid :
  string -> list Q -> list Q -> list (list float) ->
  list (list float) -> list (list float) -> result (list (list float)).

(** X16: after a call that returned, the grid of that call is the cached one:
    further calls with the same grid leave the reader as it is and do not
    consult the projection, whatever the channel, the quantity and the
    method, and the same call gives the same result again. *)
Theorem extract_cache_hit (self self' : FY4B_AGRI_L1)
    (channel_name calibration : string) (g : option (list Q)) (m : string)
    (out : DataArray) :
  extract latlon2linecolumn interp_grid self channel_name calibration g m
    = (self', Ok out) ->
  extract latlon2linecolumn interp_grid self' channel_name calibration g m
    = (self', Ok out) /\
  forall projection channel_name' calibration' m',
    extract projection interp_grid self' channel_name' calibration' g m' =
    (self', dn_values ← native_dn self' channel_name';
            dn_values ← (if truthy (geo_desc self')
                          then resample interp_grid self' m' dn_values
                          else Ok dn_values);
            calibrate self' channel_name' calibration' dn_values).
Proof.
  intros H. rewrite extract_unfold in H. cbn zeta in H.
  assert (Hhit : forall projection,
            match g with
            | Some gd =>
                if truthy g && geo_ne gd (geo_desc self')
                then set_geo_desc projection self' g else (self', Ok tt)
            | None => (self', Ok tt)
            end = (self', Ok tt)).
  { intros projection. destruct g as [gd|]; [|reflexivity].
    destruct (truthy (Some gd)) eqn:Et; [|reflexivity]. cbn [andb] in H |- *.
    destruct (geo_ne gd (geo_desc self)) eqn:Ene.
    - destruct (set_geo_desc latlon2linecolumn self (Some gd)) as [s [[]|e]] eqn:Es;
        cbn in H; [|discriminate].
      injection H as <- _.
      rewrite (set_geo_desc_Ok_geo latlon2linecolumn _ _ _ Es). cbn [geo_ne].
      rewrite list_ne_refl. reflexivity.
    - cbn in H. injection H as <- _. rewrite Ene. reflexivity. }
  assert (Hrest : forall projection channel_name' calibration' m',
            extract projection interp_grid self' channel_name' calibration' g m' =
            (self', dn_values ← native_dn self' channel_name';
                    dn_values ← (if truthy (geo_desc self')
                                  then resample interp_grid self' m' dn_values
                                  else Ok dn_values);
                    calibrate self' channel_name' calibration' dn_values)).
  { intros. rewrite extract_unfold, Hhit. reflexivity. }
  split; [|exact Hrest].
  rewrite Hrest.
  destruct (match g with
            | Some gd =>
                if truthy g && geo_ne gd (geo_desc self)
                then set_geo_desc latlon2linecolumn self g else (self, Ok tt)
            | None => (self, Ok tt)
            end) as [s [[]|e]]; cbn in H; [|discriminate].
  injection H as <- H. rewrite H. reflexivity.
Qed.

(** X17: a grid given to the constructor and a grid given to the first call of
    [extract] come to the same: both leave the same reader and return the
    same result. *)
Theorem grid_at_construction_or_call (fs : gmap string HDF) (p : string)
    (gd : list Q) (s0 s1 : FY4B_AGRI_L1) (channel_name calibration m : string) :
  init latlon2linecolumn fs p None = Ok s0 ->
  init latlon2linecolumn fs p (Some gd) = Ok s1 ->
  extract latlon2linecolumn interp_grid s0 channel_name calibration (Some gd) m =
  extract latlon2linecolumn interp_grid s1 channel_name calibration None m /\
  (extract latlon2linecolumn interp_grid s1 channel_name calibration None m).1 = s1.
Proof.
  unfold init. intros H0 H1.
  destruct (fs !! p) as [f|]; [|discriminate].
  cbn [of_option mbind result_bind] in H0, H1.
  destruct (root_attrs f !! "Begin Line Number"); [|discriminate].
  cbn [of_option mbind result_bind] in H0, H1.
  destruct (root_attrs f !! "End Line Number"); [|discriminate].
  cbn [of_option mbind result_bind] in H0, H1.
  destruct (root_attrs f !! "Begin Pixel Number"); [|discriminate].
  cbn [of_option mbind result_bind] in H0, H1.
  destruct (root_attrs f !! "End Pixel Number"); [|discriminate].
  cbn [of_option mbind result_bind] in H0, H1.
  cbn in H0. injection H0 as <-.
  unfold set_cache at 1.
  cbn [ds cal resolution line_begin line_end column_begin column_end].
  match type of H1 with
  | context [set_geo_desc _ ?base (Some gd)] =>
      destruct (set_geo_desc latlon2linecolumn base (Some gd)) as [s [[]|e]] eqn:Es
  end; [|discriminate].
  injection H1 as ->.
  pose proof (set_geo_desc_Ok_geo latlon2linecolumn _ _ _ Es) as Hg.
  destruct (set_geo_desc_Ok_inv latlon2linecolumn _ _ _ Es)
    as (lat_S & lat_N & lon_W & lon_E & step & _ & _ & _ & _ & -> & _).
  rewrite !extract_unfold. cbn [truthy andb geo_ne set_cache geo_desc].
  rewrite Es. cbn [fst snd]. split; reflexivity.
Qed.

(** X18: the cached arrays belong to the cached parameters: the constructor
    establishes it and every call of [extract] that returns keeps it. *)
Theorem reader_cache_invariant :
  (forall fs p g self,
     init latlon2linecolumn fs p g = Ok self ->
     cache_consistent latlon2linecolumn self) /\
  (forall self channel_name calibration g m,
     cache_consistent latlon2linecolumn self ->
     is_Ok (extract latlon2linecolumn interp_grid self channel_name calibration g m).2 ->
     cache_consistent latlon2linecolumn
       (extract latlon2linecolumn interp_grid self channel_name calibration g m).1).
Proof.
  split.
  - intros fs p g self. apply init_consistent.
  - intros self channel_name calibration g m. apply extract_consistent.
Qed.

End Cached.

Lemma extract_cache_hit_witness :
  exists out,
    extract Demo.project Demo.sample Demo.reader "Channel02" "reflectance"
      (Some Demo.grid) default_interp_method = (Demo.gridded_reader, Ok out) /\
    extract Demo.project Demo.sample Demo.gridded_reader "Channel02" "reflectance"
      (Some Demo.grid) default_interp_method = (Demo.gridded_reader, Ok out) /\
    extract Edge.failing_project Demo.sample Demo.gridded_reader "Channel07" "radiance"
      (Some Demo.grid) default_interp_method =
    extract Demo.project Demo.sample Demo.gridded_reader "Channel07" "radiance"
      (Some Demo.grid) default_interp_method.
Proof.
  eexists. split; [vm_compute; reflexivity|].
  destruct (extract_cache_hit Demo.project Demo.sample Demo.reader Demo.gridded_reader
              "Channel02" "reflectance" (Some Demo.grid) default_interp_method _
              ltac:(vm_compute; reflexivity)) as [Hsame Hany].
  split; [exact Hsame|]. rewrite !Hany. reflexivity.
Defined.

Lemma grid_at_construction_or_call_witness :
  extract Demo.project Demo.sample Demo.reader "Channel02" "reflectance"
    (Some Demo.grid) default_interp_method =
  extract Demo.project Demo.sample Demo.gridded_reader "Channel02" "reflectance"
    None default_interp_method /\
  (extract Demo.project Demo.sample Demo.gridded_reader "Channel02" "reflectance"
     None default_interp_method).1 = Demo.gridded_reader.
Proof.
  apply (grid_at_construction_or_call Demo.project Demo.sample Demo.fs Demo.path
           Demo.grid).
  - reflexivity.
  - vm_compute. reflexivity.
Defined.

(** ** The grid a call without resampling returns *)

Lemma has_shape_map_any (f : float -> float) (v : list (list float)) (n m : nat) :
  Np.has_shape (map (map f) v) n m = Np.has_shape v n m.
Proof.
  unfold Np.has_shape. rewrite length_map. f_equal.
  induction v as [|r v IH]; [reflexivity|].
  cbn. rewrite length_map, IH. reflexivity.
Qed.

Lemma length_range (a b : Z) : length (Py.range a b) = Z.to_nat (b - a).
Proof. unfold Py.range. rewrite length_map, length_seq. reflexivity. Qed.

Section Native.

Variable latlon2linecolumn :
  list (list float) -> list (list float) -> string ->
  result (list (list float) * list (list float)).

Variable interp_grid :
  string -> list Q -> list Q -> list (list float) ->
  list (list float) -> list (list float) -> result (list (list float)).

(** X19: without a grid in effect a call that returns hands back a grid over
    the product's window: its dimensions are [line] and [column], labelled
    with the line numbers [line_begin .. line_end] and the column numbers
    [column_begin .. column_end], and it has one row per line and one entry
    per column; a variable of another shape makes the call fail. *)
Theorem extract_native_window (self : FY4B_AGRI_L1)
    (channel_name calibration : string) (g : option (list Q)) (m : string)
    (out : DataArray) :
  truthy g = false -> truthy (geo_desc self) = false ->
  (extract latlon2linecolumn interp_grid self channel_name calibration g m).2 = Ok out ->
  dims out = ["line"; "column"] /\
  coords out !! "line" = Some (map inject_Z (Py.range (line_begin self) (line_end self + 1))) /\
  coords out !! "column" =
    Some (map inject_Z (Py.range (column_begin self) (column_end self + 1))) /\
  Np.has_shape (values out)
    (Z.to_nat (line_end self + 1 - line_begin self))
    (Z.to_nat (column_end self + 1 - column_begin self)) = true.
Proof.
  intros Hg Hc H. rewrite extract_native in H by assumption. cbn [snd] in H.
  unfold native_dn in H.
  destruct (ds self !! ("NOM" ++ channel_name)) as [dn|]; [|discriminate].
  cbn [of_option mbind result_bind] in H. unfold Xr.new in H.
  destruct (Np.has_shape (values dn) _ _) eqn:Hs; [|discriminate].
  cbn [mbind result_bind] in H.
  unfold Z_axis in Hs. rewrite !length_map, !length_range in Hs.
  apply calibrate_Ok_inv in H as [[_ ->]|(_ & n & fill & f & u & _ & _ & -> & _)].
  - cbn. repeat split; try reflexivity. exact Hs.
  - cbn. repeat split; try reflexivity. rewrite has_shape_map_any. exact Hs.
Qed.

End Native.

Lemma extract_native_window_witness :
  exists out,
    (extract Demo.project Demo.sample Demo.reader "Channel07" "brightness_temperature"
       None default_interp_method).2 = Ok out /\
    dims out = ["line"; "column"] /\
    coords out !! "line" = Some [0; 1]%Q /\
    coords out !! "column" = Some [0; 1; 2]%Q /\
    Np.has_shape (values out) 2 3 = true.
Proof.
  eexists. split; [vm_compute; reflexivity|].
  apply (extract_native_window Demo.project Demo.sample Demo.reader "Channel07"
           "brightness_temperature" None default_interp_method);
    [reflexivity|reflexivity|vm_compute; reflexivity].
Defined.

(** ** The arrays a grid leaves in the cache *)

Section Arrays.

Variable latlon2linecolumn :
  list (list float) -> list (list float) -> string ->
  result (list (list float) * list (list float)).

(** X20: after a successful [set_geo_desc] the cache holds the grid as it
    was given and two arrays named "line" and "column" over the dimensions
    [lat] and [lon]; both carry the same two axes, and each has one row for
    every latitude and one entry in a row for every longitude. *)
Theorem set_geo_desc_cached_arrays (self self' : FY4B_AGRI_L1) (gd : list Q) :
  set_geo_desc latlon2linecolumn self (Some gd) = (self', Ok tt) ->
  exists l c lat lon,
    line self' = Some l /\ column self' = Some c /\ geo_desc self' = Some gd /\
    name l = Some "line" /\ name c = Some "column" /\
    dims l = ["lat"; "lon"] /\ dims c = ["lat"; "lon"] /\
    coords l !! "lat" = Some lat /\ coords l !! "lon" = Some lon /\
    coords c !! "lat" = Some lat /\ coords c !! "lon" = Some lon /\
    Np.has_shape (values l) (length lat) (length lon) = true /\
    Np.has_shape (values c) (length lat) (length lon) = true.
Proof.
  intros H.
  destruct (set_geo_desc_Ok_inv latlon2linecolumn _ _ _ H)
    as (a & b & c & d & s & lat & lon & l0 & c0 & _ & _ & _ & _ & Hl & Hc & ->).
  eexists. eexists. exists lat, lon. cbn [line column geo_desc set_cache].
  split; [reflexivity|]. split; [reflexivity|]. split; [reflexivity|].
  cbn [name dims coords values].
  split; [reflexivity|]. split; [reflexivity|].
  split; [reflexivity|]. split; [reflexivity|].
  split; [rewrite lookup_insert_ne by discriminate; apply lookup_insert_eq|].
  split; [apply lookup_insert_eq|].
  split; [rewrite lookup_insert_ne by discriminate; apply lookup_insert_eq|].
  split; [apply lookup_insert_eq|].
  split; assumption.
Qed.

End Arrays.

Lemma set_geo_desc_cached_arrays_witness :
  exists l c lat lon,
    line Demo.gridded_reader = Some l /\ column Demo.gridded_reader = Some c /\
    geo_desc Demo.gridded_reader = Some Demo.grid /\
    name l = Some "line" /\ name c = Some "column" /\
    dims l = ["lat"; "lon"] /\ dims c = ["lat"; "lon"] /\
    coords l !! "lat" = Some lat /\ coords l !! "lon" = Some lon /\
    coords c !! "lat" = Some lat /\ coords c !! "lon" = Some lon /\
    Np.has_shape (values l) (length lat) (length lon) = true /\
    Np.has_shape (values c) (length lat) (length lon) = true.
Proof.
  apply (set_geo_desc_cached_arrays Demo.project Demo.reader Demo.gridded_reader
           Demo.grid).
  vm_compute. reflexivity.
Defined.

(** ** The script *)

Section ScriptProperties.

Variable latlon2linecolumn :
  list (list float) -> list (list float) -> string ->
  result (list (list float) * list (list float)).

Variable interp_grid :
  string -> list Q -> list Q -> list (list float) ->
  list (list float) -> list (list float) -> result (list (list float)).

Lemma main_axes :
  exists lat lon,
    lat_axis (Double.mul 1000 (Double.round 17)) (Double.mul 1000 (Double.round 54))
      (Double.mul 1000 (Double.round (1 # 10))) = Ok lat /\
    lon_axis (Double.mul 1000 (Double.round 73)) (Double.mul 1000 (Double.round 135))
      (Double.mul 1000 (Double.round (1 # 10))) = Ok lon /\
    length lat = 371%nat /\ length lon = 621%nat.
Proof.
  eexists. eexists.
  split; [vm_compute; reflexivity|]. split; [vm_compute; reflexivity|].
  split; reflexivity.
Qed.

(** X21: when the script's call returns, its result is the reflectance of
    channel 2, named "Channel02_reflectance" with the unit "100%", over the
    dimensions of the cached arrays, [lat] and [lon], with 371 latitudes
    and 621 longitudes: the grid 17 .. 54 by 73 .. 135 in steps of 0.1. *)
Theorem main_result (fs : gmap string HDF) (out : DataArray) :
  main latlon2linecolumn interp_grid fs = Ok out ->
  name out = Some "Channel02_reflectance" /\
  attrs out !! "units" = Some (AStr "100%") /\
  dims out = ["lat"; "lon"] /\
  exists lat lon,
    coords out !! "lat" = Some lat /\ coords out !! "lon" = Some lon /\
    length lat = 371%nat /\ length lon = 621%nat.
Proof.
  unfold main. intros H.
  destruct (init latlon2linecolumn fs main_filename (Some main_geo_desc))
    as [file|] eqn:Einit; [|discriminate].
  cbn [mbind result_bind] in H.
  assert (Hset : exists base,
            set_geo_desc latlon2linecolumn base (Some main_geo_desc) = (file, Ok tt)).
  { unfold init in Einit.
    destruct (fs !! main_filename) as [f|]; [|discriminate].
    cbn [of_option mbind result_bind] in Einit.
    destruct (root_attrs f !! "Begin Line Number"); [|discriminate].
    cbn [of_option mbind result_bind] in Einit.
    destruct (root_attrs f !! "End Line Number"); [|discriminate].
    cbn [of_option mbind result_bind] in Einit.
    destruct (root_attrs f !! "Begin Pixel Number"); [|discriminate].
    cbn [of_option mbind result_bind] in Einit.
    destruct (root_attrs f !! "End Pixel Number"); [|discriminate].
    cbn [of_option mbind result_bind] in Einit.
    match type of Einit with
    | context [set_geo_desc _ ?base _] =>
        exists base;
        destruct (set_geo_desc latlon2linecolumn base (Some main_geo_desc))
          as [s [[]|e]]
    end; [|discriminate].
    injection Einit as ->. reflexivity. }
  destruct Hset as [base Hset].
  destruct (set_geo_desc_Ok_inv latlon2linecolumn _ _ _ Hset)
    as (a & b & c & d & s & lat & lon & l0 & c0 & Hgd & Elat & Elon & _ & _ & _ & ->).
  injection Hgd as <- <- <- <- <-.
  destruct main_axes as (lat' & lon' & Elat' & Elon' & Hnlat & Hnlon).
  rewrite Elat in Elat'. rewrite Elon in Elon'.
  injection Elat' as <-. injection Elon' as <-. clear Elat Elon Hset.
  rewrite extract_cached in H by reflexivity. cbn [snd] in H.
  destruct (native_dn _ "Channel02") as [dn|]; [|discriminate].
  cbn [mbind result_bind] in H.
  unfold resample in H. cbn [line column set_cache of_option mbind result_bind] in H.
  destruct (interp_grid _ _ _ _ _ _) as [v|]; [|discriminate].
  cbn [mbind result_bind values dims coords] in H.
  apply calibrate_Ok_inv in H as [[E _]|(_ & n & fill & f & u & _ & _ & -> & Hpath)];
    [discriminate|].
  destruct Hpath as [(coef & k & b & _ & _ & _ & _ & ->)|(c & E & _)]; [|discriminate].
  cbn [name attrs dims coords].
  split; [reflexivity|]. split; [reflexivity|]. split; [reflexivity|].
  exists lat, lon.
  split; [rewrite lookup_insert_ne by discriminate; apply lookup_insert_eq|].
  split; [apply lookup_insert_eq|]. split; assumption.
Qed.

End ScriptProperties.

Lemma main_result_witness :
  match main Demo.project Demo.sample Edge.main_fs with
  | Ok out =>
      name out = Some "Channel02_reflectance" /\
      attrs out !! "units" = Some (AStr "100%") /\
      dims out = ["lat"; "lon"] /\
      exists lat lon,
        coords out !! "lat" = Some lat /\ coords out !! "lon" = Some lon /\
        length lat = 371%nat /\ length lon = 621%nat
  | Raise _ => False
  end.
Proof.
  assert (Hb : succeeds (main Demo.project Demo.sample Edge.main_fs) = true)
    by (vm_compute; reflexivity).
  destruct (main Demo.project Demo.sample Edge.main_fs) as [out|e] eqn:E.
  - exact (main_result Demo.project Demo.sample Edge.main_fs out E).
  - discriminate.
Defined.

(** ** Entries one by one *)

Lemma calibrate_entrywise_witness :
  exists out1 out2,
    calibrate Demo.reader "Channel07" "radiance" Demo.nom07 = Ok out1 /\
    calibrate Demo.reader "Channel07" "radiance" Edge.nan_grid = Ok out2 /\
    cell Demo.nom07 0 2 = cell Edge.nan_grid 0 2 /\
    cell out1 0 2 = cell out2 0 2.
Proof.
  eexists. eexists.
  split; [vm_compute; reflexivity|]. split; [vm_compute; reflexivity|].
  split; [reflexivity|].
  apply (calibrate_entrywise Demo.reader "Channel07" "radiance" Demo.nom07 Edge.nan_grid);
    [reflexivity|vm_compute; reflexivity|vm_compute; reflexivity|reflexivity].
Defined.
